(** * chess-com-box-py: a shallow embedding of [chess_com_box.py]

    The script reads three configuration values from the process
    environment, performs one HTTP GET against the Chess.com statistics
    API, renders five fixed-width text lines and performs one HTTP PATCH
    against the GitHub gist API.

    The embedding follows the Python source function by function:
    - Python values coming out of [response.json()] are the inductive
      [pyval];
    - Python [str] is a list of Unicode code points, so that [len] counts
      what Python's [len] counts (the emoji of the source are one or two
      code points each);
    - Python [int] is [Z];
    - exceptions are the inductive [exn]; pure code runs in [result],
      code that prints, reads the environment or uses the network runs in
      the state-and-exception monad [prog] over the record [world].

    The limits of the interpreter that the script can run into are part
    of the embedding: the cap on the digits of an integer turned into
    text, the index type that a repetition count has to fit, the Latin-1
    encoding of HTTP header values and the encoding of the standard
    output. *)

From Stdlib Require Import ZArith NArith Ascii String Decimal DecimalString.
From Stdlib Require Import DecimalFacts DecimalN.
From Stdlib Require Import Floats.SpecFloat.
From stdpp Require Import base decidable option list countable numbers gmap.

Local Open Scope Z_scope.
#[local] Set Warnings "-register-all".

(** ** Exceptions and results *)

(** A Python string is a sequence of code points. *)
Abbreviation str := (list N).

Inductive exn : Type :=
| AttributeError
| TypeError
| KeyError (key : str)
| IndexError
| ValueError
| OverflowError
| RecursionError
| UnicodeEncodeError
| RequestException (msg : str)
| SystemExit (code : Z).

Inductive result (A : Type) : Type :=
| Ok (a : A)
| Raise (e : exn).
Arguments Ok {A} a.
Arguments Raise {A} e.

Definition rbind {A B} (r : result A) (k : A -> result B) : result B :=
  match r with
  | Ok a => k a
  | Raise e => Raise e
  end.

(** [try: body  except classes as e: handler] for pure code. The clause
    says whether it matches the exception and, when it does, what the
    handler gets from it; an exception it does not match propagates. *)
Definition try_except {A E} (body : result A) (clause : exn -> option E)
    (handler : E -> result A) : result A :=
  match body with
  | Ok a => Ok a
  | Raise e =>
      match clause e with
      | Some x => handler x
      | None => Raise e
      end
  end.

Declare Scope res_scope.
Delimit Scope res_scope with res.
Notation "x <- m ;; k" := (rbind m (fun x => k))
  (at level 20, m at level 99, k at level 200, only parsing) : res_scope.

(** The two limits of the interpreter that stop a conversion: the cap on
    the digits of an integer ([ValueError]) and the recursion limit
    ([RecursionError]). *)
Inductive limit_error : Type :=
| DigitLimit
| DepthLimit.

Definition limit_exn (e : limit_error) : exn :=
  match e with
  | DigitLimit => ValueError
  | DepthLimit => RecursionError
  end.

(** ** Python strings *)

(** An ASCII literal of the source, as code points. *)
Definition lit (s : string) : str :=
  List.map N_of_ascii (list_ascii_of_string s).

(** [len(s)] *)
Definition len (s : str) : Z := Z.of_nat (length s).

(** The least value of the index type [Py_ssize_t] on a 64-bit build. *)
Definition SSIZE_MIN : Z := - 2 ^ 63.

(** The largest length a string can have, [sys.maxsize]. *)
Definition SSIZE_MAX : Z := 2 ^ 63 - 1.

(** [s * n]. The count has to fit the index type: below [SSIZE_MIN] the
    interpreter raises [OverflowError]. A count that fits and is zero or
    negative gives the empty string. The positive counts the interpreter
    refuses ask for a string of [2 ^ 63] code points or more, which no
    memory holds; the embedding has no bound on memory and builds the
    string. *)
Definition str_mul (s : str) (n : Z) : result str :=
  if n <? SSIZE_MIN then Raise OverflowError
  else Ok (if n <=? 0 then [] else List.concat (List.repeat s (Z.to_nat n))).

(** [sep.join(parts)] *)
Fixpoint join (sep : str) (parts : list str) : str :=
  match parts with
  | [] => []
  | [p] => p
  | p :: ps => p ++ sep ++ join sep ps
  end.

(** The decimal text of an integer: digits, with a leading minus sign. *)
Definition decimal (z : Z) : str :=
  lit (NilZero.string_of_int (Z.to_int z)).

(** The number of decimal digits of an integer, the sign apart. *)
Definition dec_digits (z : Z) : nat :=
  Decimal.nb_digits (N.to_uint (Z.abs_N z)).

(** ** Python values *)

(** The values [json.loads] produces. A [dict] keeps its items in
    insertion order, with string keys (JSON object keys); its keys are
    distinct, and in a list of items that repeats a key the first item
    with the key is the one that counts. *)
Inductive pyval : Type :=
| PNone
| PBool (b : bool)
| PInt (z : Z)
| PFloat (f : spec_float)
| PStr (s : str)
| PList (l : list pyval)
| PDict (items : list (str * pyval)).

(** Truth value testing, as [if rating] does it. *)
Definition truthy (v : pyval) : bool :=
  match v with
  | PNone => false
  | PBool b => b
  | PInt z => negb (z =? 0)
  | PFloat (S754_zero _) => false
  | PFloat _ => true
  | PStr s => negb (bool_decide (s = []))
  | PList l => match l with [] => false | _ => true end
  | PDict d => match d with [] => false | _ => true end
  end.

(** What the interpreter alone decides. [int_max_str_digits] is
    [sys.get_int_max_str_digits()]: 4300 unless configured, 0 when the
    cap is off, and never between 1 and 639, which the interpreter
    refuses to set. [float_repr] is the text of a [float], which always
    exists. [container_repr] is the text of a list or a dict, or the
    limit that stops its conversion (an integer over the cap inside it,
    or a nesting deeper than the recursion limit). *)
Class Interpreter := {
  int_max_str_digits : nat;
  float_repr : spec_float -> str;
  container_repr : pyval -> limit_error + str
}.

(** [str(n)] for an [int]: [ValueError] when the cap is on and the
    integer has more digits than the cap allows. *)
Definition int_str `{Interpreter} (z : Z) : result str :=
  if ((0 <? int_max_str_digits)%nat && (int_max_str_digits <? dec_digits z)%nat)%bool
  then Raise ValueError
  else Ok (decimal z).

(** [str(v)], which is what the replacement field [{rating}] of an
    f-string renders. *)
Definition py_str `{Interpreter} (v : pyval) : result str :=
  match v with
  | PNone => Ok (lit "None")
  | PBool true => Ok (lit "True")
  | PBool false => Ok (lit "False")
  | PInt z => int_str z
  | PFloat f => Ok (float_repr f)
  | PStr s => Ok s
  | PList _ | PDict _ =>
      match container_repr v with
      | inl e => Raise (limit_exn e)
      | inr s => Ok s
      end
  end.

(** [d.get(key, default)] on a [dict]: the first item with that key. *)
Fixpoint dict_get (items : list (str * pyval)) (key : str) (default : pyval)
    : pyval :=
  match items with
  | [] => default
  | (k, v) :: rest => if decide (k = key) then v else dict_get rest key default
  end.

(** [obj.get(key, default)]: only a [dict] has the attribute [get]. *)
Definition py_get (obj : pyval) (key : str) (default : pyval) : result pyval :=
  match obj with
  | PDict items => Ok (dict_get items key default)
  | _ => Raise AttributeError
  end.

(** ** The process: environment, standard output, network *)

(** One call of [requests.get] or [requests.patch], as the script issues
    it. *)
Record request : Type := mkRequest {
  method : str;
  url : str;
  headers : list (str * str);
  json_payload : option pyval;
  timeout : Z
}.

(** What [response.json()] does with the body: the parsed value, in
    which every integer is within the digit cap, since the parser built
    it; the decoding error of [requests] for a body that is not JSON; or
    a limit of the interpreter hit while parsing (an integer literal over
    the digit cap, a nesting over the recursion limit), which is not an
    error of [requests]. *)
Inductive body_parse : Type :=
| Parsed (v : pyval)
| Malformed (msg : str)
| OverLimit (e : limit_error).

(** What the script looks at in a [requests.Response]: the status code,
    the text of the [HTTPError] that [raise_for_status] builds for it, and
    what [json()] does. *)
Record response : Type := mkResponse {
  status_code : Z;
  http_error_text : str;
  json_body : body_parse
}.

(** What the network does with a request. [Failed]: the request fails
    with a [RequestException] (invalid URL or header, connection error,
    timeout); for a request whose headers cannot be encoded this is a
    failure to connect, since nothing is written after it. [Responded]:
    the connection is made and, once the request is written, the server
    answers. *)
Inductive http_outcome : Type :=
| Failed (msg : str)
| Responded (r : response).

(** [environ] is [os.environ]; [stdout] holds the text of every [print]
    call that wrote and [sent] every call of [requests], oldest first; [remote] is the
    network seen from the process; [stdout_encodes] says which code
    points above ASCII the encoding of the standard output has;
    [elapsed_hundredths] is the elapsed time of the run, rounded to
    hundredths of a second as the format [0.2f] does. *)
Record world : Type := mkWorld {
  environ : gmap str str;
  stdout : list str;
  sent : list request;
  remote : request -> http_outcome;
  stdout_encodes : N -> bool;
  elapsed_hundredths : N
}.

(** Programs: a state-and-exception monad over [world]. What a program
    printed or sent before it raised stays in the world. *)
Definition prog (A : Type) : Type := world -> result A * world.

Definition ret {A} (a : A) : prog A := fun w => (Ok a, w).

Definition throw {A} (e : exn) : prog A := fun w => (Raise e, w).

Definition bind {A B} (m : prog A) (k : A -> prog B) : prog B :=
  fun w => match m w with
           | (Ok a, w') => k a w'
           | (Raise e, w') => (Raise e, w')
           end.

Definition lift {A} (r : result A) : prog A := fun w => (r, w).

Declare Scope prog_scope.
Delimit Scope prog_scope with prog.
Bind Scope prog_scope with prog.
Notation "x <- m ;; k" := (bind m (fun x => k))
  (at level 20, m at level 99, k at level 200, only parsing) : prog_scope.

(** [try: body  except classes as e: handler], with the clause as in
    [try_except]; the handler runs in the world the body left. *)
Definition try_catch {A E} (body : prog A) (clause : exn -> option E)
    (handler : E -> prog A) : prog A :=
  fun w => match body w with
           | (Ok a, w') => (Ok a, w')
           | (Raise e, w') =>
               match clause e with
               | Some x => handler x w'
               | None => (Raise e, w')
               end
           end.

(** An ASCII code point. *)
Definition is_ascii (c : N) : bool := (c <? 128)%N.

(** A code point that Latin-1 has. *)
Definition is_latin1 (c : N) : bool := (c <? 256)%N.

(** The text can be written to the standard output: every code point is
    ASCII, which every encoding of the standard output has, or one the
    encoding has. *)
Definition encodable (w : world) (s : str) : bool :=
  forallb (fun c => is_ascii c || stdout_encodes w c) s.

(** [print(s)]: [UnicodeEncodeError] when the standard output cannot
    encode the text, and then nothing is written. *)
Definition print (s : str) : prog unit :=
  fun w =>
    if encodable w s
    then (Ok tt, mkWorld (environ w) (stdout w ++ [s]) (sent w) (remote w)
                         (stdout_encodes w) (elapsed_hundredths w))
    else (Raise UnicodeEncodeError, w).

(** [os.environ[name]] *)
Definition environ_getitem (name : str) : prog str :=
  fun w => match environ w !! name with
           | Some v => (Ok v, w)
           | None => (Raise (KeyError name), w)
           end.

(** [os.environ[name] = v] *)
Definition environ_setitem (name v : str) : prog unit :=
  fun w => (Ok tt, mkWorld (<[name := v]> (environ w)) (stdout w) (sent w)
                           (remote w) (stdout_encodes w) (elapsed_hundredths w)).

(** Two decimal digits. *)
Definition two_digits (n : N) : str :=
  [(48 + n / 10)%N; (48 + n mod 10)%N].

(** What [f"{elapsed:0.2f}"] renders at the end of the run, for the
    elapsed time of the world. *)
Definition elapsed : prog str :=
  fun w =>
    (Ok (decimal (Z.of_N (elapsed_hundredths w / 100)) ++ lit "."
         ++ two_digits (elapsed_hundredths w mod 100)%N), w).

(** [sys.exit(code)] *)
Definition sys_exit {A} (code : Z) : prog A := throw (SystemExit code).

(** The headers can be put on the wire: [http.client] encodes a header
    name as ASCII and a header value as Latin-1. *)
Definition headers_encodable (hs : list (str * str)) : bool :=
  forallb (fun kv => forallb is_ascii (fst kv) && forallb is_latin1 (snd kv)) hs.

(** [requests.request(...)]: the call is recorded in [sent], whatever
    becomes of it. A failure of the request surfaces as a
    [RequestException]. Once the connection is made the headers are
    encoded, and a header that cannot be encoded raises
    [UnicodeEncodeError], which is not a [RequestException] and which
    [requests] lets through; otherwise the response comes back. *)
Definition requests_send (req : request) : prog response :=
  fun w =>
    let w' := mkWorld (environ w) (stdout w) (sent w ++ [req]) (remote w)
                      (stdout_encodes w) (elapsed_hundredths w) in
    match remote w req with
    | Failed msg => (Raise (RequestException msg), w')
    | Responded r =>
        if headers_encodable (headers req) then (Ok r, w')
        else (Raise UnicodeEncodeError, w')
    end.

(** [response.raise_for_status()]: an [HTTPError], which is a
    [RequestException], for the 4xx and 5xx status codes. *)
Definition raise_for_status (r : response) : result unit :=
  if (400 <=? status_code r) && (status_code r <? 600)
  then Raise (RequestException (http_error_text r))
  else Ok tt.

(** [response.json()]: the parsed body; the decoding error of
    [requests], which is a [RequestException] (since [requests] 2.27);
    or the [ValueError] or [RecursionError] of the parser, which
    [requests] lets through. *)
Definition response_json (r : response) : result pyval :=
  match json_body r with
  | Parsed v => Ok v
  | Malformed msg => Raise (RequestException msg)
  | OverLimit e => Raise (limit_exn e)
  end.

(** The clause [except requests.RequestException as e]: the handlers
    only use [str(e)], the message of the exception. *)
Definition request_exception (e : exn) : option str :=
  match e with
  | RequestException msg => Some msg
  | _ => None
  end.

(** ** The script *)

Module ChessComBox.

Definition WIDTH_JUSTIFICATION_SEPARATOR : str := lit ".".

(** U+265F U+FE0E, then the ASCII text. *)
Definition GIST_TITLE : str :=
  [0x265F; 0xFE0E]%N ++ lit " Chess.com Ratings".

Definition ENV_VAR_GIST_ID : str := lit "GIST_ID".
Definition ENV_VAR_GITHUB_TOKEN : str := lit "GH_TOKEN".
Definition ENV_VAR_CHESS_COM_USERNAME : str := lit "CHESS_COM_USERNAME".
Definition REQUIRED_ENVS : list str :=
  [ENV_VAR_GIST_ID; ENV_VAR_GITHUB_TOKEN; ENV_VAR_CHESS_COM_USERNAME].

(** [STATS_URL.format(user=user)] *)
Definition STATS_URL (user : str) : str :=
  lit "https://api.chess.com/pub/player/" ++ user ++ lit "/stats".

Record TitleAndValue : Type := mkTitleAndValue {
  title : str;
  value : str
}.

(** The chart glyph U+1F4C8 after a space: the tail of the f-string
    [f"{rating} 📈"]. *)
Definition TREND : str := lit " " ++ [0x1F4C8%N].

Definition NA : str := lit "N/A".

Definition get_adjusted_line (stat : TitleAndValue) (max_line_length : Z)
    : result str :=
  let spacing := max_line_length - (len (title stat) + len (value stat) + 2) in
  (run <- str_mul WIDTH_JUSTIFICATION_SEPARATOR spacing ;;
   let separator := lit " " ++ run ++ lit " " in
   Ok (title stat ++ separator ++ value stat))%res.

(** The clause [except (AttributeError, TypeError)]. *)
Definition attribute_or_type_error (e : exn) : option unit :=
  match e with
  | AttributeError | TypeError => Some tt
  | _ => None
  end.

Definition get_rating_line `{Interpreter}
    (stats_key chess_emoji chess_format : str) (chess_stats : pyval)
    : result TitleAndValue :=
  (rating_str <-
     try_except
       (data <- py_get chess_stats stats_key (PDict []) ;;
        let field := if decide (chess_format = lit "Tactics")
                     then lit "highest" else lit "last" in
        inner <- py_get data field (PDict []) ;;
        rating <- py_get inner (lit "rating") PNone ;;
        if truthy rating
        then (text <- py_str rating ;; Ok (text ++ TREND))
        else Ok NA)
       attribute_or_type_error
       (fun _ => Ok NA) ;;
   Ok (mkTitleAndValue (chess_emoji ++ lit " " ++ chess_format) rating_str))%res.

Definition validate_and_init : prog bool :=
  fun w =>
    let env_vars_absent :=
      List.filter (fun env => match environ w !! env with
                              | None => true
                              | Some v => bool_decide (v = [])
                              end) REQUIRED_ENVS in
    match env_vars_absent with
    | [] => ret true w
    | _ => (_ <- print (lit "Error: Missing environment variables: "
                        ++ join (lit ", ") env_vars_absent) ;;
            ret false)%prog w
    end.

Definition get_chess_com_stats (user : str) : prog pyval :=
  let headers := [(lit "User-Agent", lit "chess-com-box-py (@" ++ user ++ lit ")")] in
  try_catch
    (response <- requests_send
                   (mkRequest (lit "GET") (STATS_URL user) headers None 10) ;;
     _ <- lift (raise_for_status response) ;;
     lift (response_json response))%prog
    request_exception
    (fun e => _ <- print (lit "Error fetching Chess.com stats: " ++ e) ;;
              ret (PDict []))%prog.

Definition update_gist (title content : str) : prog unit :=
  (access_token <- environ_getitem ENV_VAR_GITHUB_TOKEN ;;
   gist_id <- environ_getitem ENV_VAR_GIST_ID ;;
   let headers :=
     [(lit "Authorization", lit "Bearer " ++ access_token);
      (lit "Accept", lit "application/vnd.github.v3+json")] in
   let payload :=
     PDict [(lit "files", PDict [(title, PDict [(lit "content", PStr content)])])] in
   try_catch
     (r <- requests_send
             (mkRequest (lit "PATCH") (lit "https://api.github.com/gists/" ++ gist_id)
                        headers (Some payload) 10) ;;
      _ <- lift (raise_for_status r) ;;
      print (lit "Successfully updated Gist:" ++ [10%N] ++ content))
     request_exception
     (fun e => print (lit "Error updating GitHub Gist: " ++ e)))%prog.

(** The configuration of the lines: key, emoji, label, line width. *)
Definition configs : list (str * str * str * Z) :=
  [ (lit "chess_blitz", [0x26A1%N], lit "Blitz", 52);
    (lit "chess_bullet", [0x1F685%N], lit "Bullet", 52);
    (lit "chess_rapid", [0x23F2; 0xFE0F]%N, lit "Rapid", 53);
    (lit "tactics", [0x1F9E9%N], lit "Tactics", 52);
    (lit "chess_daily", [0x2600; 0xFE0F]%N, lit "Daily", 53) ].

(** The [for] loop of [main]: [lines] is the list built so far, and each
    round appends one line to it. *)
Fixpoint format_lines `{Interpreter} (cfgs : list (str * str * str * Z))
    (stats : pyval) (lines : list str) : result (list str) :=
  match cfgs with
  | [] => Ok lines
  | (key, emoji, label, width) :: rest =>
      (stat_line <- get_rating_line key emoji label stats ;;
       line <- get_adjusted_line stat_line width ;;
       format_lines rest stats (lines ++ [line]))%res
  end.

Definition main `{Interpreter} : prog unit :=
  (valid <- validate_and_init ;;
   if negb valid then sys_exit 1 else
   username <- environ_getitem ENV_VAR_CHESS_COM_USERNAME ;;
   stats <- get_chess_com_stats username ;;
   lines <- lift (format_lines configs stats []) ;;
   let content := join [10%N] lines in
   update_gist GIST_TITLE content)%prog.

(** [sys.argv[i]] *)
Definition argv_at (argv : list str) (i : nat) : prog str :=
  match argv !! i with
  | Some a => ret a
  | None => throw IndexError
  end.

(** The command-line override at the start of the
    [if __name__ == "__main__":] block. *)
Definition cli_overrides (argv : list str) : prog unit :=
  if decide (length argv = 5%nat) then
    (a2 <- argv_at argv 2 ;;
     _ <- environ_setitem ENV_VAR_GIST_ID a2 ;;
     a3 <- argv_at argv 3 ;;
     _ <- environ_setitem ENV_VAR_GITHUB_TOKEN a3 ;;
     a4 <- argv_at argv 4 ;;
     environ_setitem ENV_VAR_CHESS_COM_USERNAME a4)%prog
  else ret tt.

(** The [if __name__ == "__main__":] block. *)
Definition script `{Interpreter} (argv : list str) : prog unit :=
  (_ <- cli_overrides argv ;;
   _ <- main ;;
   seconds <- elapsed ;;
   print (lit "Executed in " ++ seconds ++ lit " seconds."))%prog.

(** The exit status of the process: 0 when the script runs to its end,
    the code of [sys.exit], and 1 for any other uncaught exception. *)
Definition exit_status {A} (r : result A) : Z :=
  match r with
  | Ok _ => 0
  | Raise (SystemExit code) => code
  | Raise _ => 1
  end.

End ChessComBox.

Import ChessComBox.

(** * Specification-side notions *)

(** [d[key]] where it exists. *)
Fixpoint dict_find (items : list (str * pyval)) (key : str) : option pyval :=
  match items with
  | [] => None
  | (k, v) :: rest => if decide (k = key) then Some v else dict_find rest key
  end.

(** [payload[k1][k2]...]: the value reached by subscripting along [path];
    [None] when a key is absent or when what is subscripted is not a
    mapping. *)
Fixpoint lookup_path (v : pyval) (path : list str) : option pyval :=
  match path with
  | [] => Some v
  | k :: rest =>
      match v with
      | PDict items =>
          match dict_find items k with
          | Some v' => lookup_path v' rest
          | None => None
          end
      | _ => None
      end
  end.

(** The sub-field the specification selects for a format label. *)
Definition selected_field (label : str) : str :=
  if decide (label = lit "Tactics") then lit "highest" else lit "last".

(** The value string for what subscripting along the selected path
    found: the rating and the trend glyph for a rating whose truth value
    is true, "N/A" otherwise; when the rating cannot be turned into text,
    the exception of the conversion. *)
Definition rating_result `{Interpreter} (found : option pyval) : result str :=
  match found with
  | Some r =>
      if truthy r
      then match py_str r with
           | Ok s => Ok (s ++ TREND)
           | Raise e => Raise e
           end
      else Ok NA
  | None => Ok NA
  end.

(** The interpreter can print the rating, and the text has the length of
    a string of the interpreter. This holds of every value that the
    parser of the interpreter returned: an integer the parser accepted is
    within the digit cap, and a nesting it accepted is within the
    recursion limit. *)
Definition printable `{Interpreter} (r : pyval) : Prop :=
  exists s : str, py_str r = Ok s /\ len s <= SSIZE_MAX.

(** The ratings that the configurations select in the payload, where
    their truth value is true, are printable. *)
Definition printable_ratings `{Interpreter} (stats : pyval)
    (cfgs : list (str * str * str * Z)) : Prop :=
  forall (key emoji label : str) (width : Z) (r : pyval),
    In (key, emoji, label, width) cfgs ->
    lookup_path stats [key; selected_field label; lit "rating"] = Some r ->
    truthy r = true ->
    printable r.

(** The default interpreter: a digit cap of 4300. Its renderers for
    floats and containers print placeholders; the payloads evaluated
    below hold integers, strings, booleans and [null] only. *)
Definition plain_interpreter : Interpreter :=
  {| int_max_str_digits := 4300;
     float_repr := fun _ => lit "<float>";
     container_repr := fun _ => inr (lit "<container>") |}.

(** The payload [{"chess_blitz": {"last": {"rating": r}}}]. *)
Definition blitz_payload (r : pyval) : pyval :=
  PDict [(lit "chess_blitz", PDict [(lit "last", PDict [(lit "rating", r)])])].

(** The payload [{"tactics": {"highest": {"rating": h}, "last": {"rating": l}}}]. *)
Definition tactics_payload (h l : pyval) : pyval :=
  PDict [(lit "tactics",
          PDict [(lit "highest", PDict [(lit "rating", h)]);
                 (lit "last", PDict [(lit "rating", l)])])].

(** The five titles in the order of the configuration, each followed by
    the space that starts the separator. *)
Definition titles_in_order : list str :=
  [ [0x26A1%N] ++ lit " Blitz ";
    [0x1F685%N] ++ lit " Bullet ";
    [0x23F2; 0xFE0F]%N ++ lit " Rapid ";
    [0x1F9E9%N] ++ lit " Tactics ";
    [0x2600; 0xFE0F]%N ++ lit " Daily " ].

(** The one GET of a run: the statistics URL of the user, a user-agent
    header naming the caller and the user, a timeout of 10 seconds. *)
Definition stats_request (user : str) : request :=
  mkRequest (lit "GET")
    (lit "https://api.chess.com/pub/player/" ++ user ++ lit "/stats")
    [(lit "User-Agent", lit "chess-com-box-py (@" ++ user ++ lit ")")]
    None 10.

(** A status code for which [raise_for_status] raises. *)
Definition error_status (r : response) : bool :=
  (400 <=? status_code r) && (status_code r <? 600).

(** How the exchange of the fetcher ends: with a parsed body, with an
    error of [requests] and its message, or with an exception that is not
    one of [requests]. *)
Inductive fetch_step : Type :=
| Fetched (v : pyval)
| FetchFailed (msg : str)
| FetchRaised (e : exn).

Definition fetch_step_of (req : request) (o : http_outcome) : fetch_step :=
  match o with
  | Failed msg => FetchFailed msg
  | Responded r =>
      if headers_encodable (headers req)
      then if error_status r then FetchFailed (http_error_text r)
           else match json_body r with
                | Parsed v => Fetched v
                | Malformed msg => FetchFailed msg
                | OverLimit e => FetchRaised (limit_exn e)
                end
      else FetchRaised UnicodeEncodeError
  end.

(** The line the fetcher prints for an error of [requests]. *)
Definition fetch_error_line (msg : str) : str :=
  lit "Error fetching Chess.com stats: " ++ msg.

(** The PATCH of a run. *)
Definition gist_request (gist_id token title content : str) : request :=
  mkRequest (lit "PATCH") (lit "https://api.github.com/gists/" ++ gist_id)
    [(lit "Authorization", lit "Bearer " ++ token);
     (lit "Accept", lit "application/vnd.github.v3+json")]
    (Some (PDict [(lit "files", PDict [(title, PDict [(lit "content", PStr content)])])]))
    10.

(** The line the updater has to print for an outcome of its request;
    nothing when the headers cannot be encoded for a server that
    answers. *)
Definition publish_line (content : str) (req : request) (o : http_outcome)
    : option str :=
  match o with
  | Failed msg => Some (lit "Error updating GitHub Gist: " ++ msg)
  | Responded r =>
      if headers_encodable (headers req)
      then Some (if error_status r
                 then lit "Error updating GitHub Gist: " ++ http_error_text r
                 else lit "Successfully updated Gist:" ++ [10%N] ++ content)
      else None
  end.

(** The text a PATCH request carries for the gist file. *)
Definition gist_content (req : request) : option str :=
  match json_payload req with
  | Some body =>
      match lookup_path body [lit "files"; GIST_TITLE; lit "content"] with
      | Some (PStr s) => Some s
      | _ => None
      end
  | None => None
  end.

(** A required variable counts as missing when it is unset or empty. *)
Definition env_missing (w : world) (name : str) : bool :=
  match environ w !! name with
  | None => true
  | Some v => bool_decide (v = [])
  end.

(** The diagnostic of the validation check. *)
Definition missing_message (absent : list str) : str :=
  lit "Error: Missing environment variables: " ++ join (lit ", ") absent.

(** The last line of a run that reaches its end. *)
Definition elapsed_line (w : world) : str :=
  lit "Executed in "
  ++ (decimal (Z.of_N (elapsed_hundredths w / 100)) ++ lit "."
      ++ two_digits (elapsed_hundredths w mod 100)%N)
  ++ lit " seconds.".

(** The world after some more output and some more requests. *)
Definition extend (w : world) (out : list str) (reqs : list request) : world :=
  mkWorld (environ w) (stdout w ++ out) (sent w ++ reqs) (remote w)
          (stdout_encodes w) (elapsed_hundredths w).

(** The world with another environment. *)
Definition with_environ (w : world) (env : gmap str str) : world :=
  mkWorld env (stdout w) (sent w) (remote w) (stdout_encodes w)
          (elapsed_hundredths w).

(** A process with the given environment and network, before it has
    printed or sent anything, on a standard output that encodes every
    code point. *)
Definition fresh_world (env : gmap str str) (net : request -> http_outcome) : world :=
  mkWorld env [] [] net (fun _ => true) 0.

(** A network on which every request fails. *)
Definition offline : request -> http_outcome :=
  fun _ => Failed (lit "offline").

(** A network that answers every request with status 200 and the given
    JSON body. *)
Definition answering (body : pyval) : request -> http_outcome :=
  fun _ => Responded (mkResponse 200 [] (Parsed body)).

(** An environment with the three required variables. *)
Definition full_environ : gmap str str :=
  <[ENV_VAR_CHESS_COM_USERNAME := lit "hikaru"]>
    (<[ENV_VAR_GITHUB_TOKEN := lit "t0ken"]>
       (<[ENV_VAR_GIST_ID := lit "abc123"]> ∅)).

(** * The formatter *)

Section Formatter.

Lemma length_concat_repeat_singleton (c : N) (k : nat) :
  length (List.concat (List.repeat [c] k)) = k.
Proof. induction k as [|k IH]; simpl; [reflexivity | now rewrite IH]. Qed.

Lemma len_app (a b : str) : len (a ++ b) = len a + len b.
Proof. unfold len. rewrite length_app. lia. Qed.

Lemma len_nonneg (s : str) : 0 <= len s.
Proof. unfold len. lia. Qed.

(** The repetition of the separator: refused below the index type, of
    length [max 0 n] otherwise. *)
Lemma separator_run (n : Z) :
  (n < SSIZE_MIN /\ str_mul WIDTH_JUSTIFICATION_SEPARATOR n = Raise OverflowError)
  \/ (SSIZE_MIN <= n
      /\ exists run : str,
           str_mul WIDTH_JUSTIFICATION_SEPARATOR n = Ok run
           /\ len run = Z.max 0 n
           /\ (n <= 0 -> run = [])).
Proof.
  unfold str_mul. destruct (Z.ltb_spec n SSIZE_MIN) as [Hlt|Hge].
  - left. now split.
  - right. split; [exact Hge |]. eexists. split; [reflexivity |].
    unfold WIDTH_JUSTIFICATION_SEPARATOR, len.
    destruct (Z.leb_spec n 0) as [Hle|Hgt].
    + split; [simpl; lia | reflexivity].
    + split; [| lia]. change (lit ".") with [46%N].
      rewrite length_concat_repeat_singleton. lia.
Qed.

(** The line, where the repetition count fits the index type. *)
Lemma get_adjusted_line_ok (stat : TitleAndValue) (w : Z) :
  SSIZE_MIN <= w - (len (title stat) + len (value stat) + 2) ->
  exists run : str,
    get_adjusted_line stat w
    = Ok (title stat ++ (lit " " ++ run ++ lit " ") ++ value stat)
    /\ len run = Z.max 0 (w - (len (title stat) + len (value stat) + 2))
    /\ (w - (len (title stat) + len (value stat) + 2) <= 0 -> run = []).
Proof.
  intros Hfit. unfold get_adjusted_line.
  destruct (separator_run (w - (len (title stat) + len (value stat) + 2)))
    as [[Hlt _] | [_ (run & -> & Hlen & Hnil)]]; [lia |].
  exists run. split; [reflexivity |]. now split.
Qed.

Lemma len_line (t v run : str) :
  len (t ++ (lit " " ++ run ++ lit " ") ++ v) = len t + len v + 2 + len run.
Proof. rewrite !len_app. change (len (lit " ")) with 1. lia. Qed.

(** C2. When the target width is at least [len(title) + len(value) + 3],
    [get_adjusted_line] returns a line, and the line has exactly the
    target width. *)
Theorem get_adjusted_line_width (t v : str) (targetWidth : Z) :
  len t + len v + 3 <= targetWidth ->
  exists line : str,
    get_adjusted_line (mkTitleAndValue t v) targetWidth = Ok line
    /\ len line = targetWidth.
Proof.
  intros Hw.
  destruct (get_adjusted_line_ok (mkTitleAndValue t v) targetWidth)
    as (run & Hline & Hlen & _).
  - cbn [title value]. pose proof (len_nonneg t). pose proof (len_nonneg v).
    unfold SSIZE_MIN. lia.
  - cbn [title value] in *. eexists. split; [exact Hline |].
    rewrite len_line, Hlen. lia.
Qed.

(** C9. For the title "ab", the value "c" and the target width 3, which
    is smaller than [len(title) + len(value) + 3], [get_adjusted_line]
    returns the line "ab  c": the separator run is empty and nothing is
    raised, but the line has five characters, two more than the target
    width. *)
Theorem get_adjusted_line_overlong :
  3 < len (lit "ab") + len (lit "c") + 3
  /\ get_adjusted_line (mkTitleAndValue (lit "ab") (lit "c")) 3 = Ok (lit "ab  c")
  /\ len (lit "ab  c") = 5
  /\ ~ len (lit "ab  c") <= 3.
Proof.
  split; [reflexivity |]. split; [reflexivity |]. split; [reflexivity |].
  vm_compute. intros H. apply H. reflexivity.
Qed.

End Formatter.

(** * The rating extractor *)

Section Extractor.

Context `{Interpreter}.

Lemma dict_get_find (items : list (str * pyval)) (key : str) (default : pyval) :
  dict_get items key default = from_option id default (dict_find items key).
Proof.
  induction items as [|[k v] rest IH]; simpl; [reflexivity |].
  destruct (decide (k = key)); [reflexivity | exact IH].
Qed.

(** A conversion to text is stopped by a limit of the interpreter only. *)
Lemma py_str_raises (r : pyval) (e : exn) :
  py_str r = Raise e -> e = ValueError \/ e = RecursionError.
Proof.
  destruct r as [| [|] | z | f | s | l | d]; simpl; try discriminate.
  - unfold int_str.
    destruct ((0 <? int_max_str_digits)%nat && (int_max_str_digits <? dec_digits z)%nat)%bool;
      [intros E; injection E as <-; now left | discriminate].
  - destruct (container_repr (PList l)) as [[|]|s]; intros E;
      try discriminate E; injection E as <-; [now left | now right].
  - destruct (container_repr (PDict d)) as [[|]|s]; intros E;
      try discriminate E; injection E as <-; [now left | now right].
Qed.

(** The [.get] chain under [try]/[except] computes the same result as
    plain subscripting along the selected path, with "N/A" wherever the
    subscripting fails; the exception of a conversion to text is not one
    the [except] clause catches. *)
Lemma get_rating_line_path (key emoji label : str) (payload : pyval) :
  get_rating_line key emoji label payload
  = match rating_result
            (lookup_path payload [key; selected_field label; lit "rating"]) with
    | Ok v => Ok (mkTitleAndValue (emoji ++ lit " " ++ label) v)
    | Raise e => Raise e
    end.
Proof.
  assert (Hrender : forall rating : pyval,
             (rating_str <-
                try_except
                  (if truthy rating
                   then (text <- py_str rating ;; Ok (text ++ TREND))
                   else Ok NA)
                  attribute_or_type_error (fun _ => Ok NA) ;;
              Ok (mkTitleAndValue (emoji ++ lit " " ++ label) rating_str))%res
             = match rating_result (Some rating) with
               | Ok v => Ok (mkTitleAndValue (emoji ++ lit " " ++ label) v)
               | Raise e => Raise e
               end).
  { intros rating. unfold rating_result. destruct (truthy rating); [| reflexivity].
    destruct (py_str rating) as [s|e] eqn:Hs; [reflexivity |].
    destruct (py_str_raises rating e Hs) as [-> | ->]; reflexivity. }
  unfold get_rating_line, selected_field.
  generalize (if decide (label = lit "Tactics") then lit "highest" else lit "last").
  intros field.
  destruct payload as [| | | | | |items]; try reflexivity.
  cbn [py_get rbind lookup_path]. rewrite dict_get_find.
  destruct (dict_find items key) as [data|]; [|reflexivity].
  destruct data as [| | | | | |items1]; try reflexivity.
  cbn [from_option id py_get rbind]. rewrite dict_get_find.
  destruct (dict_find items1 field) as [inner|]; [|reflexivity].
  destruct inner as [| | | | | |items2]; try reflexivity.
  cbn [from_option id py_get rbind]. rewrite dict_get_find.
  destruct (dict_find items2 (lit "rating")) as [rating|]; [| reflexivity].
  cbn [from_option id]. apply Hrender.
Qed.

(** The value of a numeral made of a digit 1 and [k] zeros. *)
Lemma of_uint_acc_zeros (k : nat) (acc : positive) :
  Pos.of_uint_acc (Nat.iter k D0 Nil) acc = Nat.iter k (Pos.mul 10) acc.
Proof.
  revert acc. induction k as [|k IH]; intros acc; [reflexivity |].
  change (Pos.of_uint_acc (Nat.iter (S k) D0 Nil) acc)
    with (Pos.of_uint_acc (Nat.iter k D0 Nil) (Pos.mul 10 acc)).
  rewrite IH. symmetry. apply Nat.iter_succ_r.
Qed.

Lemma pow10_iter (k : nat) :
  Z.pos (Nat.iter k (Pos.mul 10) 1%positive) = 10 ^ Z.of_nat k.
Proof.
  induction k as [|k IH]; [reflexivity |].
  rewrite Nat2Z.inj_succ, Z.pow_succ_r by lia.
  change (Nat.iter (S k) (Pos.mul 10) 1%positive)
    with (Pos.mul 10 (Nat.iter k (Pos.mul 10) 1%positive)).
  rewrite Pos2Z.inj_mul, IH. reflexivity.
Qed.

Lemma pow10_numeral (k : nat) :
  10 ^ Z.of_nat k = Z.of_N (N.of_uint (D1 (Nat.iter k D0 Nil))).
Proof.
  change (N.of_uint (D1 (Nat.iter k D0 Nil)))
    with (N.pos (Pos.of_uint_acc (Nat.iter k D0 Nil) 1)).
  rewrite of_uint_acc_zeros. symmetry. apply pow10_iter.
Qed.

(** The power [10 ^ k] has [k + 1] digits. *)
Lemma dec_digits_pow10 (k : nat) : dec_digits (10 ^ Z.of_nat k) = S k.
Proof.
  rewrite pow10_numeral. unfold dec_digits.
  rewrite Zabs2N.id, DecimalN.Unsigned.to_of.
  change (unorm (D1 (Nat.iter k D0 Nil))) with (D1 (Nat.iter k D0 Nil)).
  cbn [nb_digits]. rewrite nb_digits_iter_D0. cbn [nb_digits]. lia.
Qed.

(** An integer rating over the digit cap stops the extractor with
    [ValueError]. *)
Lemma get_rating_line_over_cap (key emoji label : str) (payload : pyval) (R : Z) :
  lookup_path payload [key; selected_field label; lit "rating"] = Some (PInt R) ->
  R <> 0 ->
  (0 < int_max_str_digits)%nat ->
  (int_max_str_digits < dec_digits R)%nat ->
  get_rating_line key emoji label payload = Raise ValueError.
Proof.
  intros Hfound HR Hcap Hdigits.
  rewrite get_rating_line_path, Hfound. unfold rating_result.
  cbn [truthy py_str]. destruct (Z.eqb_spec R 0) as [E|_]; [contradiction |].
  cbn [negb]. unfold int_str.
  destruct (Nat.ltb_spec 0 int_max_str_digits) as [_|Hc]; [| lia].
  destruct (Nat.ltb_spec int_max_str_digits (dec_digits R)) as [_|Hd]; [| lia].
  reflexivity.
Qed.

Lemma blitz_payload_rating (r : pyval) :
  lookup_path (blitz_payload r)
    [lit "chess_blitz"; selected_field (lit "Blitz"); lit "rating"] = Some r.
Proof. reflexivity. Qed.

Lemma rendered_rating_not_na (s : str) : s ++ TREND <> NA.
Proof.
  intros E. apply (f_equal (@List.rev N)) in E.
  unfold TREND in E. rewrite !List.rev_app_distr in E.
  vm_compute in E. discriminate E.
Qed.


(** C3. [get_rating_line] takes the rating from
    [payload[statsKey]["highest"]["rating"]] when the label is "Tactics"
    and from [payload[statsKey]["last"]["rating"]] for every other
    label: its result is determined by what is found at that path, and
    by nothing else in the payload. *)
Theorem get_rating_line_field (key emoji label : str) (payload : pyval) :
  (label = lit "Tactics" ->
   get_rating_line key emoji label payload
   = match lookup_path payload [key; lit "highest"; lit "rating"] with
     | Some r =>
         if truthy r
         then match py_str r with
              | Ok s => Ok (mkTitleAndValue (emoji ++ lit " " ++ label) (s ++ TREND))
              | Raise e => Raise e
              end
         else Ok (mkTitleAndValue (emoji ++ lit " " ++ label) NA)
     | None => Ok (mkTitleAndValue (emoji ++ lit " " ++ label) NA)
     end)
  /\ (label <> lit "Tactics" ->
      get_rating_line key emoji label payload
      = match lookup_path payload [key; lit "last"; lit "rating"] with
        | Some r =>
            if truthy r
            then match py_str r with
                 | Ok s => Ok (mkTitleAndValue (emoji ++ lit " " ++ label) (s ++ TREND))
                 | Raise e => Raise e
                 end
            else Ok (mkTitleAndValue (emoji ++ lit " " ++ label) NA)
        | None => Ok (mkTitleAndValue (emoji ++ lit " " ++ label) NA)
        end).
Proof.
  split; intros Hl; rewrite get_rating_line_path; unfold selected_field, rating_result;
    destruct (decide (label = lit "Tactics")); try contradiction.
  - destruct (lookup_path payload [key; lit "highest"; lit "rating"]) as [r|];
      [| reflexivity].
    destruct (truthy r); [| reflexivity]. destruct (py_str r); reflexivity.
  - destruct (lookup_path payload [key; lit "last"; lit "rating"]) as [r|];
      [| reflexivity].
    destruct (truthy r); [| reflexivity]. destruct (py_str r); reflexivity.
Qed.

(** C4, as the code has it. A rating number found at the selected path
    and different from zero is rendered as the number followed by a
    space and the chart glyph: decimal digits for an [int] whose digits
    are within the cap of the interpreter (or when the cap is off), the
    interpreter's text for a [float]. *)
Theorem get_rating_line_present (key emoji label : str) (payload : pyval) :
  (forall R : Z,
     lookup_path payload [key; selected_field label; lit "rating"] = Some (PInt R) ->
     R <> 0 ->
     (int_max_str_digits = 0 \/ dec_digits R <= int_max_str_digits)%nat ->
     get_rating_line key emoji label payload
     = Ok (mkTitleAndValue (emoji ++ lit " " ++ label) (decimal R ++ TREND)))
  /\ (forall f : spec_float,
        lookup_path payload [key; selected_field label; lit "rating"] = Some (PFloat f) ->
        truthy (PFloat f) = true ->
        get_rating_line key emoji label payload
        = Ok (mkTitleAndValue (emoji ++ lit " " ++ label) (float_repr f ++ TREND))).
Proof.
  split.
  - intros R Hfound HR Hcap. rewrite get_rating_line_path, Hfound.
    unfold rating_result. cbn [truthy py_str].
    destruct (Z.eqb_spec R 0); [contradiction |]. cbn [negb]. unfold int_str.
    destruct (Nat.ltb_spec 0 int_max_str_digits) as [Hc|Hc];
      destruct (Nat.ltb_spec int_max_str_digits (dec_digits R)) as [Hd|Hd];
      try reflexivity.
    exfalso. lia.
  - intros f Hfound Htrue. rewrite get_rating_line_path, Hfound.
    unfold rating_result. rewrite Htrue. reflexivity.
Qed.

(** C10. A rating found at the selected path whose truth value is false
    gives the value "N/A"; the number 0 is such a rating. *)
Theorem get_rating_line_falsy (key emoji label : str) (payload r : pyval) :
  lookup_path payload [key; selected_field label; lit "rating"] = Some r ->
  truthy r = false ->
  get_rating_line key emoji label payload
  = Ok (mkTitleAndValue (emoji ++ lit " " ++ label) NA)
  /\ truthy (PInt 0) = false.
Proof.
  intros Hfound Hfalse. split; [|reflexivity].
  rewrite get_rating_line_path, Hfound. unfold rating_result.
  rewrite Hfalse. reflexivity.
Qed.

(** X2. The line of a format depends on the payload only through what is
    found at the selected path: two payloads that agree there give the
    same result, whatever else they hold. *)
Theorem get_rating_line_same_path (key emoji label : str) (p1 p2 : pyval) :
  lookup_path p1 [key; selected_field label; lit "rating"]
  = lookup_path p2 [key; selected_field label; lit "rating"] ->
  get_rating_line key emoji label p1 = get_rating_line key emoji label p2.
Proof.
  intros E. rewrite !get_rating_line_path, E. reflexivity.
Qed.

(** X3. The value is "N/A" exactly when the selected path holds no
    rating whose truth value is true; a rendered rating is never the text
    "N/A". *)
Theorem get_rating_line_na_iff (key emoji label : str) (payload : pyval) :
  get_rating_line key emoji label payload
  = Ok (mkTitleAndValue (emoji ++ lit " " ++ label) NA)
  <-> (forall r : pyval,
         lookup_path payload [key; selected_field label; lit "rating"] = Some r ->
         truthy r = false).
Proof.
  rewrite get_rating_line_path. unfold rating_result.
  destruct (lookup_path payload [key; selected_field label; lit "rating"]) as [r|].
  - destruct (truthy r) eqn:Ht.
    + split.
      * destruct (py_str r) as [s|e]; intros E; [| discriminate E].
        injection E as E. exfalso. exact (rendered_rating_not_na _ E).
      * intros Hall. specialize (Hall r eq_refl). congruence.
    + split; [intros _ r' E; injection E as <-; exact Ht | reflexivity].
  - split; [intros _ r E; discriminate E | reflexivity].
Qed.

(** X4. A rating of the wrong type is not rejected: a non-empty string
    found at the selected path is rendered as it is, and the boolean
    [true] as "True", each followed by the trend glyph. *)
Theorem get_rating_line_wrong_type (key emoji label : str) (payload : pyval) :
  (forall s : str,
     lookup_path payload [key; selected_field label; lit "rating"] = Some (PStr s) ->
     s <> [] ->
     get_rating_line key emoji label payload
     = Ok (mkTitleAndValue (emoji ++ lit " " ++ label) (s ++ TREND)))
  /\ (lookup_path payload [key; selected_field label; lit "rating"] = Some (PBool true) ->
      get_rating_line key emoji label payload
      = Ok (mkTitleAndValue (emoji ++ lit " " ++ label) (lit "True" ++ TREND))).
Proof.
  split.
  - intros s Hfound Hs. rewrite get_rating_line_path, Hfound.
    unfold rating_result. cbn [truthy py_str].
    rewrite bool_decide_eq_false_2 by exact Hs. reflexivity.
  - intros Hfound. rewrite get_rating_line_path, Hfound. reflexivity.
Qed.

End Extractor.

(** * The process *)

Section Process.

Context `{Interpreter}.

Lemma extend_nil (w : world) : extend w [] [] = w.
Proof. destruct w. unfold extend. cbn. now rewrite !app_nil_r. Qed.

Lemma extend_extend (w : world) (o1 o2 : list str) (r1 r2 : list request) :
  extend (extend w o1 r1) o2 r2 = extend w (o1 ++ o2) (r1 ++ r2).
Proof. unfold extend. cbn. now rewrite !app_assoc. Qed.

Lemma ascii_encodable (w : world) (s : str) :
  forallb is_ascii s = true -> encodable w s = true.
Proof.
  unfold encodable. rewrite !forallb_forall. intros Hall c Hc.
  rewrite (Hall c Hc). reflexivity.
Qed.

Lemma forallb_ascii_app (a b : str) :
  forallb is_ascii (a ++ b) = (forallb is_ascii a && forallb is_ascii b)%bool.
Proof. apply forallb_app. Qed.

Lemma lit_cons (c : ascii) (s : string) :
  lit (String c s) = N_of_ascii c :: lit s.
Proof. reflexivity. Qed.

Lemma digits_ascii (d : uint) :
  forallb is_ascii (lit (NilEmpty.string_of_uint d)) = true.
Proof.
  induction d; cbn [NilEmpty.string_of_uint]; [reflexivity | ..];
    rewrite lit_cons; cbn [forallb]; rewrite IHd; reflexivity.
Qed.

Lemma decimal_ascii (z : Z) : forallb is_ascii (decimal z) = true.
Proof.
  unfold decimal, NilZero.string_of_int, NilZero.string_of_uint.
  destruct (Z.to_int z) as [d|d]; destruct d;
    try reflexivity; try apply digits_ascii;
    rewrite lit_cons; cbn [forallb]; rewrite digits_ascii; reflexivity.
Qed.

Lemma two_digits_ascii (n : N) : forallb is_ascii (two_digits (n mod 100)) = true.
Proof.
  unfold two_digits, is_ascii. cbn [forallb].
  assert (Hlt : (n mod 100 < 100)%N) by (apply N.mod_lt; discriminate).
  assert (Hq : (n mod 100 / 10 < 10)%N)
    by (apply N.Div0.div_lt_upper_bound; exact Hlt).
  assert (Hr : ((n mod 100) mod 10 < 10)%N) by (apply N.mod_lt; discriminate).
  rewrite !andb_true_iff, !N.ltb_lt. lia.
Qed.

(** The last line of a run is ASCII, whatever the elapsed time. *)
Lemma elapsed_line_ascii (w : world) : forallb is_ascii (elapsed_line w) = true.
Proof.
  unfold elapsed_line. rewrite !forallb_ascii_app.
  rewrite decimal_ascii, two_digits_ascii. reflexivity.
Qed.

(** The diagnostic of the validation check is ASCII. *)
Lemma missing_message_ascii (f : str -> bool) :
  forallb is_ascii (missing_message (List.filter f REQUIRED_ENVS)) = true.
Proof.
  unfold REQUIRED_ENVS. cbn [List.filter].
  destruct (f ENV_VAR_GIST_ID), (f ENV_VAR_GITHUB_TOKEN),
    (f ENV_VAR_CHESS_COM_USERNAME); vm_compute; reflexivity.
Qed.

Lemma print_run (s : str) (w : world) :
  print s w
  = if encodable w s then (Ok tt, extend w [s] [])
    else (Raise UnicodeEncodeError, w).
Proof.
  unfold print, extend. destruct (encodable w s); [| reflexivity].
  now rewrite app_nil_r.
Qed.

(** The validation check: it lets the run through when no required
    variable is missing, and prints the missing names otherwise. *)
Lemma validate_and_init_run (w : world) :
  validate_and_init w
  = match List.filter (env_missing w) REQUIRED_ENVS with
    | [] => (Ok true, w)
    | absent => (Ok false, extend w [missing_message absent] [])
    end.
Proof.
  unfold validate_and_init.
  change (fun env : str => match environ w !! env with
                           | Some v => bool_decide (v = [])
                           | None => true
                           end) with (env_missing w).
  pose proof (missing_message_ascii (env_missing w)) as Hascii.
  destruct (List.filter (env_missing w) REQUIRED_ENVS) as [|a absent];
    [reflexivity |].
  unfold bind.
  change (lit "Error: Missing environment variables: "
          ++ join (lit ", ") (a :: absent)) with (missing_message (a :: absent)).
  rewrite print_run, (ascii_encodable w _ Hascii). reflexivity.
Qed.

(** The fetcher: one request; it returns the parsed body, or the empty
    mapping after printing an error of [requests]; an exception that is
    not one of [requests] leaves it, and so does the failure to print the
    error. *)
Lemma get_chess_com_stats_run (user : str) (w : world) :
  get_chess_com_stats user w
  = match fetch_step_of (stats_request user) (remote w (stats_request user)) with
    | Fetched v => (Ok v, extend w [] [stats_request user])
    | FetchFailed msg =>
        if encodable w (fetch_error_line msg)
        then (Ok (PDict []), extend w [fetch_error_line msg] [stats_request user])
        else (Raise UnicodeEncodeError, extend w [] [stats_request user])
    | FetchRaised e => (Raise e, extend w [] [stats_request user])
    end.
Proof.
  assert (Hhandler : forall msg : str,
             (_ <- print (lit "Error fetching Chess.com stats: " ++ msg) ;;
              ret (PDict []))%prog (extend w [] [stats_request user])
             = if encodable w (fetch_error_line msg)
               then (Ok (PDict []), extend w [fetch_error_line msg] [stats_request user])
               else (Raise UnicodeEncodeError, extend w [] [stats_request user])).
  { intros msg. unfold bind. rewrite print_run.
    change (encodable (extend w [] [stats_request user])
              (lit "Error fetching Chess.com stats: " ++ msg))
      with (encodable w (fetch_error_line msg)).
    destruct (encodable w (fetch_error_line msg)); [| reflexivity].
    rewrite extend_extend. reflexivity. }
  unfold get_chess_com_stats, try_catch, bind, requests_send, lift.
  change (mkRequest (lit "GET") (STATS_URL user)
            [(lit "User-Agent", lit "chess-com-box-py (@" ++ user ++ lit ")")]
            None 10) with (stats_request user).
  assert (Hw : mkWorld (environ w) (stdout w) (sent w ++ [stats_request user])
                 (remote w) (stdout_encodes w) (elapsed_hundredths w)
               = extend w [] [stats_request user])
    by (unfold extend; now rewrite app_nil_r).
  rewrite Hw. unfold fetch_step_of.
  destruct (remote w (stats_request user)) as [msg|r].
  - cbn [request_exception]. apply Hhandler.
  - destruct (headers_encodable (headers (stats_request user))); [| reflexivity].
    unfold raise_for_status, error_status, response_json.
    destruct ((400 <=? status_code r) && (status_code r <? 600)).
    + cbn [request_exception]. apply Hhandler.
    + destruct (json_body r) as [v|msg|[|]].
      * reflexivity.
      * cbn [request_exception]. apply Hhandler.
      * reflexivity.
      * reflexivity.
Qed.

(** The updater, once the token and the gist identifier are in the
    environment: one request and one line; the failure to encode a header
    or to print the line leaves it as [UnicodeEncodeError]. *)
Lemma update_gist_run (title content gist_id token : str) (w : world) :
  environ w !! ENV_VAR_GIST_ID = Some gist_id ->
  environ w !! ENV_VAR_GITHUB_TOKEN = Some token ->
  update_gist title content w
  = match publish_line content (gist_request gist_id token title content)
            (remote w (gist_request gist_id token title content)) with
    | Some line =>
        if encodable w line
        then (Ok tt, extend w [line] [gist_request gist_id token title content])
        else (Raise UnicodeEncodeError,
              extend w [] [gist_request gist_id token title content])
    | None => (Raise UnicodeEncodeError,
               extend w [] [gist_request gist_id token title content])
    end.
Proof.
  intros Hg Ht.
  assert (Hprint : forall line : str,
             print line (extend w [] [gist_request gist_id token title content])
             = if encodable w line
               then (Ok tt, extend w [line] [gist_request gist_id token title content])
               else (Raise UnicodeEncodeError,
                     extend w [] [gist_request gist_id token title content])).
  { intros line. rewrite print_run.
    change (encodable (extend w [] [gist_request gist_id token title content]) line)
      with (encodable w line).
    destruct (encodable w line); [| reflexivity].
    rewrite extend_extend. reflexivity. }
  unfold update_gist, bind, environ_getitem. rewrite Ht, Hg.
  unfold try_catch, bind, requests_send, lift.
  change (mkRequest (lit "PATCH") (lit "https://api.github.com/gists/" ++ gist_id)
            [(lit "Authorization", lit "Bearer " ++ token);
             (lit "Accept", lit "application/vnd.github.v3+json")]
            (Some (PDict [(lit "files",
                           PDict [(title, PDict [(lit "content", PStr content)])])]))
            10) with (gist_request gist_id token title content).
  assert (Hw : mkWorld (environ w) (stdout w)
                 (sent w ++ [gist_request gist_id token title content])
                 (remote w) (stdout_encodes w) (elapsed_hundredths w)
               = extend w [] [gist_request gist_id token title content])
    by (unfold extend; now rewrite app_nil_r).
  rewrite Hw. unfold publish_line.
  destruct (remote w (gist_request gist_id token title content)) as [msg|r].
  - cbn [request_exception]. apply Hprint.
  - destruct (headers_encodable (headers (gist_request gist_id token title content)));
      [| reflexivity].
    unfold raise_for_status, error_status.
    destruct ((400 <=? status_code r) && (status_code r <? 600)).
    + cbn [request_exception]. apply Hprint.
    + rewrite Hprint.
      destruct (encodable w (lit "Successfully updated Gist:" ++ [10%N] ++ content));
        reflexivity.
Qed.

(** The line of one configuration, for a rating that can be printed and
    a width that leaves room for the title, the two spaces and "N/A". *)
Lemma config_line (key emoji label : str) (width : Z) (stats : pyval) :
  (forall r : pyval,
     lookup_path stats [key; selected_field label; lit "rating"] = Some r ->
     truthy r = true -> printable r) ->
  len emoji + len label + 6 <= width ->
  exists v run : str,
    get_rating_line key emoji label stats
    = Ok (mkTitleAndValue (emoji ++ lit " " ++ label) v)
    /\ get_adjusted_line (mkTitleAndValue (emoji ++ lit " " ++ label) v) width
       = Ok ((emoji ++ lit " " ++ label) ++ (lit " " ++ run ++ lit " ") ++ v)
    /\ len run = Z.max 0 (width - (len (emoji ++ lit " " ++ label) + len v + 2))
    /\ (v = NA \/ exists s : str, v = s ++ TREND)
    /\ (lookup_path stats [key; selected_field label; lit "rating"] = None -> v = NA).
Proof.
  intros Hprint Hwidth.
  assert (Hv : exists v : str,
             rating_result
               (lookup_path stats [key; selected_field label; lit "rating"]) = Ok v
             /\ len v <= SSIZE_MAX + 2
             /\ (v = NA \/ exists s : str, v = s ++ TREND)
             /\ (lookup_path stats [key; selected_field label; lit "rating"] = None
                 -> v = NA)).
  { unfold rating_result.
    destruct (lookup_path stats [key; selected_field label; lit "rating"]) as [r|].
    - destruct (truthy r) eqn:Ht.
      + destruct (Hprint r eq_refl Ht) as (s & -> & Hs).
        exists (s ++ TREND). split; [reflexivity |].
        split; [rewrite len_app; change (len TREND) with 2; lia |].
        split; [right; now exists s | discriminate].
      + exists NA. split; [reflexivity |].
        split; [vm_compute; discriminate |]. split; [now left | reflexivity].
    - exists NA. split; [reflexivity |].
      split; [vm_compute; discriminate |]. split; [now left | reflexivity]. }
  destruct Hv as (v & Hres & Hlen & Hshape & Hnone).
  destruct (get_adjusted_line_ok
              (mkTitleAndValue (emoji ++ lit " " ++ label) v) width)
    as (run & Hline & Hrun & _).
  - cbn [title value]. rewrite !len_app. change (len (lit " ")) with 1.
    unfold SSIZE_MIN. unfold SSIZE_MAX in Hlen. lia.
  - exists v, run. rewrite get_rating_line_path, Hres.
    split; [reflexivity |]. split; [exact Hline |].
    split; [exact Hrun |]. split; [exact Hshape | exact Hnone].
Qed.

(** The loop raises only what a conversion to text or a repetition
    raises. *)
Lemma format_lines_raises (cfgs : list (str * str * str * Z)) (stats : pyval)
    (lines : list str) (e : exn) :
  format_lines cfgs stats lines = Raise e ->
  e = ValueError \/ e = RecursionError \/ e = OverflowError.
Proof.
  revert lines. induction cfgs as [|[[[key emoji] label] width] rest IH];
    intros lines; [discriminate |].
  cbn [format_lines]. rewrite get_rating_line_path. unfold rating_result.
  destruct (lookup_path stats [key; selected_field label; lit "rating"]) as [r|].
  - destruct (truthy r).
    + destruct (py_str r) as [s|e'] eqn:Hs.
      * cbn [rbind]. unfold get_adjusted_line.
        destruct (separator_run
                    (width - (len (title (mkTitleAndValue (emoji ++ lit " " ++ label)
                                            (s ++ TREND)))
                              + len (value (mkTitleAndValue (emoji ++ lit " " ++ label)
                                              (s ++ TREND))) + 2)))
          as [[_ ->] | [_ (run & -> & _)]]; cbn [rbind].
        -- intros E. injection E as <-. tauto.
        -- apply IH.
      * cbn [rbind]. intros E. injection E as <-.
        destruct (py_str_raises r e' Hs); tauto.
    + cbn [rbind]. unfold get_adjusted_line.
      destruct (separator_run
                  (width - (len (title (mkTitleAndValue (emoji ++ lit " " ++ label) NA))
                            + len (value (mkTitleAndValue (emoji ++ lit " " ++ label) NA))
                            + 2)))
        as [[_ ->] | [_ (run & -> & _)]]; cbn [rbind].
      * intros E. injection E as <-. tauto.
      * apply IH.
  - cbn [rbind]. unfold get_adjusted_line.
    destruct (separator_run
                (width - (len (title (mkTitleAndValue (emoji ++ lit " " ++ label) NA))
                          + len (value (mkTitleAndValue (emoji ++ lit " " ++ label) NA))
                          + 2)))
      as [[_ ->] | [_ (run & -> & _)]]; cbn [rbind].
    + intros E. injection E as <-. tauto.
    + apply IH.
Qed.

(** Whenever the loop completes, it has appended one line per
    configuration, each starting with its title and a space. *)
Lemma format_lines_shape (cfgs : list (str * str * str * Z)) (stats : pyval)
    (lines res : list str) :
  format_lines cfgs stats lines = Ok res ->
  exists added : list str,
    res = lines ++ added
    /\ Forall2
         (fun (cfg : str * str * str * Z) (l : str) =>
            let '(key, emoji, label, width) := cfg in
            (emoji ++ lit " " ++ label ++ lit " ") `prefix_of` l)
         cfgs added.
Proof.
  revert lines. induction cfgs as [|[[[key emoji] label] width] rest IH];
    intros lines.
  - cbn [format_lines]. intros E. injection E as <-.
    exists []. split; [now rewrite app_nil_r | constructor].
  - cbn [format_lines]. rewrite get_rating_line_path.
    destruct (rating_result
                (lookup_path stats [key; selected_field label; lit "rating"]))
      as [v|e]; [| discriminate].
    cbn [rbind]. unfold get_adjusted_line. cbn [title value].
    destruct (str_mul WIDTH_JUSTIFICATION_SEPARATOR
                (width - (len (emoji ++ lit " " ++ label) + len v + 2)))
      as [run|e]; [| discriminate].
    cbn [rbind]. intros Hrest. destruct (IH _ Hrest) as (added & -> & Hall).
    exists (((emoji ++ lit " " ++ label) ++ (lit " " ++ run ++ lit " ") ++ v) :: added).
    split; [now rewrite <- app_assoc |].
    constructor; [| exact Hall].
    exists (run ++ lit " " ++ v). now rewrite <- !app_assoc.
Qed.

(** The loop, for ratings that can be printed and widths that leave room
    for the title, the two spaces and "N/A". *)
Lemma format_lines_ok (cfgs : list (str * str * str * Z)) (stats : pyval)
    (lines : list str) :
  printable_ratings stats cfgs ->
  Forall (fun cfg : str * str * str * Z =>
            let '(key, emoji, label, width) := cfg in
            len emoji + len label + 6 <= width) cfgs ->
  exists added : list str,
    format_lines cfgs stats lines = Ok (lines ++ added)
    /\ Forall2
         (fun (cfg : str * str * str * Z) (l : str) =>
            let '(key, emoji, label, width) := cfg in
            (emoji ++ lit " " ++ label ++ lit " ") `prefix_of` l
            /\ ((lit " " ++ NA) `suffix_of` l \/ TREND `suffix_of` l)
            /\ width <= len l
            /\ (lookup_path stats [key; selected_field label; lit "rating"] = None ->
                NA `suffix_of` l /\ len l = width))
         cfgs added.
Proof.
  revert lines. induction cfgs as [|[[[key emoji] label] width] rest IH];
    intros lines Hprint Hwidths.
  - exists []. split; [cbn; now rewrite app_nil_r | constructor].
  - inversion Hwidths as [|cfg rest' Hwidth Hrest]; subst.
    destruct (config_line key emoji label width stats)
      as (v & run & Hrating & Hline & Hrun & Hshape & Hnone).
    { intros r Hfound Ht.
      exact (Hprint key emoji label width r (or_introl eq_refl) Hfound Ht). }
    { exact Hwidth. }
    destruct (IH (lines ++ [(emoji ++ lit " " ++ label)
                            ++ (lit " " ++ run ++ lit " ") ++ v]))
      as (added & Hrest_ok & Hall).
    { intros k e l w r Hin. apply (Hprint k e l w r). now right. }
    { exact Hrest. }
    exists (((emoji ++ lit " " ++ label) ++ (lit " " ++ run ++ lit " ") ++ v) :: added).
    split.
    + cbn [format_lines]. rewrite Hrating. cbn [rbind]. rewrite Hline. cbn [rbind].
      rewrite Hrest_ok, <- app_assoc. reflexivity.
    + constructor; [| exact Hall].
      split; [| split; [| split]].
      * exists (run ++ lit " " ++ v). now rewrite <- !app_assoc.
      * destruct Hshape as [-> | (s & ->)].
        -- left. exists ((emoji ++ lit " " ++ label) ++ lit " " ++ run).
           now rewrite <- !app_assoc.
        -- right. exists ((emoji ++ lit " " ++ label) ++ lit " " ++ run ++ lit " " ++ s).
           now rewrite <- !app_assoc.
      * rewrite len_line, Hrun. lia.
      * intros Hmiss. rewrite (Hnone Hmiss) in *. split.
        -- exists ((emoji ++ lit " " ++ label) ++ lit " " ++ run ++ lit " ").
           now rewrite <- !app_assoc.
        -- rewrite len_line, Hrun. rewrite !len_app.
           change (len (lit " ")) with 1. change (len NA) with 3.
           rewrite !len_app in Hrun. lia.
Qed.

(** A run that passes the validation check: fetch, format, publish; an
    exception of the fetch or of the loop ends it. *)
Lemma main_run (w : world) (gist_id token user : str) :
  environ w !! ENV_VAR_GIST_ID = Some gist_id -> gist_id <> [] ->
  environ w !! ENV_VAR_GITHUB_TOKEN = Some token -> token <> [] ->
  environ w !! ENV_VAR_CHESS_COM_USERNAME = Some user -> user <> [] ->
  main w
  = match get_chess_com_stats user w with
    | (Ok stats, w1) =>
        match format_lines configs stats [] with
        | Ok lines => update_gist GIST_TITLE (join [10%N] lines) w1
        | Raise e => (Raise e, w1)
        end
    | (Raise e, w1) => (Raise e, w1)
    end.
Proof.
  intros Hg Hg' Ht Ht' Hu Hu'.
  unfold main, bind. rewrite validate_and_init_run.
  assert (Hf : List.filter (env_missing w) REQUIRED_ENVS = []).
  { unfold REQUIRED_ENVS, env_missing. cbn [List.filter].
    rewrite Hg, Ht, Hu.
    rewrite !bool_decide_eq_false_2 by assumption. reflexivity. }
  rewrite Hf. cbn [negb]. unfold environ_getitem. rewrite Hu.
  destruct (get_chess_com_stats user w) as [[stats|e] w1]; [| reflexivity].
  unfold lift. destruct (format_lines configs stats []); reflexivity.
Qed.

(** The request of the updater is recorded, whatever its outcome. *)
Lemma update_gist_sent (title content gist_id token : str) (w : world) :
  environ w !! ENV_VAR_GIST_ID = Some gist_id ->
  environ w !! ENV_VAR_GITHUB_TOKEN = Some token ->
  exists (res : result unit) (out : list str),
    update_gist title content w
    = (res, extend w out [gist_request gist_id token title content])
    /\ (res = Ok tt \/ res = Raise UnicodeEncodeError).
Proof.
  intros Hg Ht. rewrite (update_gist_run title content gist_id token w Hg Ht).
  destruct (publish_line content (gist_request gist_id token title content)
              (remote w (gist_request gist_id token title content))) as [line|].
  - destruct (encodable w line); do 2 eexists; (split; [reflexivity | tauto]).
  - do 2 eexists. split; [reflexivity | tauto].
Qed.

(** The world the fetcher leaves: the one request more, and what it
    printed. *)
Lemma get_chess_com_stats_world (user : str) (w : world) :
  exists out : list str,
    snd (get_chess_com_stats user w) = extend w out [stats_request user]
    /\ (forall e : exn,
          fst (get_chess_com_stats user w) = Raise e ->
          e = ValueError \/ e = RecursionError \/ e = UnicodeEncodeError).
Proof.
  rewrite get_chess_com_stats_run. unfold fetch_step_of.
  destruct (remote w (stats_request user)) as [msg|r].
  - destruct (encodable w (fetch_error_line msg)); eexists;
      (split; [reflexivity |]); intros e E; [discriminate E |].
    injection E as <-. tauto.
  - destruct (headers_encodable (headers (stats_request user)));
      [| eexists; split; [reflexivity |]; intros e E; injection E as <-; tauto].
    destruct (error_status r).
    + destruct (encodable w (fetch_error_line (http_error_text r))); eexists;
        (split; [reflexivity |]); intros e E; [discriminate E |].
      injection E as <-. tauto.
    + destruct (json_body r) as [v|msg|[|]].
      * eexists. split; [reflexivity |]. intros e E. discriminate E.
      * destruct (encodable w (fetch_error_line msg)); eexists;
          (split; [reflexivity |]); intros e E; [discriminate E |].
        injection E as <-. tauto.
      * eexists. split; [reflexivity |]. intros e E. injection E as <-. tauto.
      * eexists. split; [reflexivity |]. intros e E. injection E as <-. tauto.
Qed.

(** What a run that passed the validation check can do: return normally
    after the GET and the PATCH, or stop at a limit of the interpreter
    after the GET or after the PATCH. *)
Lemma main_validated (w : world) (gist_id token user : str) :
  environ w !! ENV_VAR_GIST_ID = Some gist_id -> gist_id <> [] ->
  environ w !! ENV_VAR_GITHUB_TOKEN = Some token -> token <> [] ->
  environ w !! ENV_VAR_CHESS_COM_USERNAME = Some user -> user <> [] ->
  exists (res : result unit) (out : list str) (reqs : list request),
    main w = (res, extend w out reqs)
    /\ ((res = Ok tt
         /\ exists content : str,
              reqs = [stats_request user;
                      gist_request gist_id token GIST_TITLE content])
        \/ (exists e : exn,
              res = Raise e
              /\ (e = ValueError \/ e = RecursionError \/ e = OverflowError
                  \/ e = UnicodeEncodeError)
              /\ (reqs = [stats_request user]
                  \/ exists content : str,
                       reqs = [stats_request user;
                               gist_request gist_id token GIST_TITLE content]))).
Proof.
  intros Hg Hg' Ht Ht' Hu Hu'.
  rewrite (main_run w gist_id token user) by assumption.
  destruct (get_chess_com_stats_world user w) as (out1 & Hw1 & Hraise).
  destruct (get_chess_com_stats user w) as [[stats|e] w1]; cbn [fst snd] in *.
  - subst w1. destruct (format_lines configs stats []) as [lines|e] eqn:Hfmt.
    + destruct (update_gist_sent GIST_TITLE (join [10%N] lines) gist_id token
                  (extend w out1 [stats_request user]) Hg Ht)
        as (res & out2 & Hup & Hres).
      rewrite Hup, extend_extend. do 3 eexists. split; [reflexivity |].
      destruct Hres as [-> | ->].
      * left. split; [reflexivity |]. eexists. reflexivity.
      * right. eexists. split; [reflexivity |]. split; [tauto |].
        right. eexists. reflexivity.
    + do 3 eexists. split; [reflexivity |]. right. exists e.
      split; [reflexivity |].
      split; [destruct (format_lines_raises _ _ _ _ Hfmt) as [-> | [-> | ->]]; tauto |].
      now left.
  - subst w1. do 3 eexists. split; [reflexivity |]. right. exists e.
    split; [reflexivity |].
    split; [destruct (Hraise e eq_refl) as [-> | [-> | ->]]; tauto | now left].
Qed.

Lemma filter_nil_iff {A} (f : A -> bool) (l : list A) :
  List.filter f l = [] <-> (forall x : A, In x l -> f x = false).
Proof.
  induction l as [|a l IH]; simpl.
  - split; [intros _ x [] | reflexivity].
  - destruct (f a) eqn:Fa; split.
    + intros E. discriminate E.
    + intros Hall. specialize (Hall a (or_introl eq_refl)). congruence.
    + intros E x [<- | Hx]; [exact Fa | now apply IH].
    + intros Hall. apply IH. intros x Hx. apply Hall. now right.
Qed.

Lemma env_missing_false (w : world) (name : str) :
  env_missing w name = false
  <-> exists v : str, environ w !! name = Some v /\ v <> [].
Proof.
  unfold env_missing. destruct (environ w !! name) as [v|].
  - rewrite bool_decide_eq_false. split.
    + intros Hv. exists v. now split.
    + intros (v' & E & Hv). now injection E as <-.
  - split; [discriminate | intros (v & E & _); discriminate E].
Qed.

Lemma required_present (w : world) :
  List.filter (env_missing w) REQUIRED_ENVS = []
  <-> (forall name : str,
         In name REQUIRED_ENVS ->
         exists v : str, environ w !! name = Some v /\ v <> []).
Proof.
  rewrite filter_nil_iff. split; intros Hall name Hn.
  - apply env_missing_false. now apply Hall.
  - apply env_missing_false. now apply Hall.
Qed.

(** The two ways through the validation check of [main]. *)
Lemma main_cases (w : world) :
  (List.filter (env_missing w) REQUIRED_ENVS = []
   /\ exists gist_id token user : str,
        (environ w !! ENV_VAR_GIST_ID = Some gist_id /\ gist_id <> [])
        /\ (environ w !! ENV_VAR_GITHUB_TOKEN = Some token /\ token <> [])
        /\ (environ w !! ENV_VAR_CHESS_COM_USERNAME = Some user /\ user <> []))
  \/ (List.filter (env_missing w) REQUIRED_ENVS <> []
      /\ main w
         = (Raise (SystemExit 1),
            extend w [missing_message (List.filter (env_missing w) REQUIRED_ENVS)] [])).
Proof.
  destruct (List.filter (env_missing w) REQUIRED_ENVS) as [|a absent] eqn:Hf.
  - left. split; [reflexivity |].
    pose proof (proj1 (required_present w) Hf) as Hall.
    destruct (Hall ENV_VAR_GIST_ID) as (g & Hg); [simpl; tauto |].
    destruct (Hall ENV_VAR_GITHUB_TOKEN) as (t & Ht); [simpl; tauto |].
    destruct (Hall ENV_VAR_CHESS_COM_USERNAME) as (u & Hu); [simpl; tauto |].
    exists g, t, u. tauto.
  - right. split; [discriminate |].
    unfold main, bind. rewrite validate_and_init_run, Hf. reflexivity.
Qed.

(** The command-line block never fails and only touches the
    environment. *)
Lemma cli_overrides_run (argv : list str) (w : world) :
  exists env' : gmap str str,
    cli_overrides argv w = (Ok tt, with_environ w env')
    /\ (length argv <> 5%nat -> env' = environ w)
    /\ (forall p a g t u : str,
          argv = [p; a; g; t; u] ->
          env' = <[ENV_VAR_CHESS_COM_USERNAME := u]>
                   (<[ENV_VAR_GITHUB_TOKEN := t]>
                      (<[ENV_VAR_GIST_ID := g]> (environ w)))).
Proof.
  unfold cli_overrides.
  destruct (decide (length argv = 5%nat)) as [Hlen|Hlen].
  - destruct argv as [|p [|a [|g [|t [|u [|extra rest]]]]]]; try discriminate Hlen.
    eexists. split; [reflexivity |].
    split; [intros Hne; contradiction |].
    intros p' a' g' t' u' E. injection E as <- <- <- <- <-. reflexivity.
  - exists (environ w). split; [destruct w; reflexivity |].
    split; [reflexivity |].
    intros p a g t u ->. contradiction Hlen. reflexivity.
Qed.

(** The script after a run of [main] that returned: the elapsed time is
    printed, whatever the standard output encodes. *)
Lemma script_tail (w : world) :
  (seconds <- elapsed ;;
   print (lit "Executed in " ++ seconds ++ lit " seconds."))%prog w
  = (Ok tt, extend w [elapsed_line w] []).
Proof.
  unfold bind, elapsed.
  change (lit "Executed in "
          ++ (decimal (Z.of_N (elapsed_hundredths w / 100)) ++ lit "."
              ++ two_digits (elapsed_hundredths w mod 100)%N)
          ++ lit " seconds.") with (elapsed_line w).
  rewrite print_run, (ascii_encodable w _ (elapsed_line_ascii w)). reflexivity.
Qed.

Lemma configs_widths :
  Forall (fun cfg : str * str * str * Z =>
            let '(key, emoji, label, width) := cfg in
            len emoji + len label + 6 <= width) configs.
Proof. unfold configs. repeat constructor; vm_compute; discriminate. Qed.

(** C5. For every payload whose selected ratings can be printed, as
    those of a payload that the parser returned can, the loop of [main]
    produces exactly five lines, one per configuration, starting with the
    titles of Blitz, Bullet, Rapid, Tactics and Daily in that order, and
    for the empty payload every line ends in "N/A" and has its configured
    width (52, 52, 53, 52, 53). For every payload whatsoever, the loop
    either produces five such lines in that order, whichever formats the
    payload holds, or stops at a limit of the interpreter, which happens
    only when a selected rating cannot be printed. A run that passes the
    validation check and fetches a payload whose ratings can be printed
    calls [requests.patch] with these five lines joined by newlines. *)
Theorem main_five_lines (w : world) (gist_id token user : str) :
  environ w !! ENV_VAR_GIST_ID = Some gist_id -> gist_id <> [] ->
  environ w !! ENV_VAR_GITHUB_TOKEN = Some token -> token <> [] ->
  environ w !! ENV_VAR_CHESS_COM_USERNAME = Some user -> user <> [] ->
  (forall stats : pyval,
     printable_ratings stats configs ->
     exists l1 l2 l3 l4 l5 : str,
       format_lines configs stats [] = Ok [l1; l2; l3; l4; l5]
       /\ Forall2 (fun t l => t `prefix_of` l) titles_in_order [l1; l2; l3; l4; l5]
       /\ (stats = PDict [] ->
           Forall (fun l => NA `suffix_of` l) [l1; l2; l3; l4; l5]
           /\ List.map len [l1; l2; l3; l4; l5] = [52; 52; 53; 52; 53]))
  /\ (exists l1 l2 l3 l4 l5 : str,
        format_lines configs (PDict []) [] = Ok [l1; l2; l3; l4; l5]
        /\ Forall2 (fun t l => t `prefix_of` l) titles_in_order [l1; l2; l3; l4; l5]
        /\ Forall (fun l => NA `suffix_of` l) [l1; l2; l3; l4; l5]
        /\ List.map len [l1; l2; l3; l4; l5] = [52; 52; 53; 52; 53])
  /\ (forall (stats : pyval) (lines : list str),
        format_lines configs stats [] = Ok lines ->
        exists l1 l2 l3 l4 l5 : str,
          lines = [l1; l2; l3; l4; l5]
          /\ Forall2 (fun t l => t `prefix_of` l) titles_in_order [l1; l2; l3; l4; l5])
  /\ (forall (stats : pyval) (e : exn),
        format_lines configs stats [] = Raise e ->
        (e = ValueError \/ e = RecursionError \/ e = OverflowError)
        /\ ~ printable_ratings stats configs)
  /\ (forall (stats : pyval) (w1 : world),
        get_chess_com_stats user w = (Ok stats, w1) ->
        printable_ratings stats configs ->
        exists (lines : list str) (req : request),
          format_lines configs stats [] = Ok lines
          /\ length lines = 5%nat
          /\ sent (snd (main w)) = sent w ++ [stats_request user; req]
          /\ gist_content req = Some (join [10%N] lines)).
Proof.
  intros Hg Hg' Ht Ht' Hu Hu'.
  assert (Hfive : forall stats : pyval,
             printable_ratings stats configs ->
             exists l1 l2 l3 l4 l5 : str,
               format_lines configs stats [] = Ok [l1; l2; l3; l4; l5]
               /\ Forall2 (fun t l => t `prefix_of` l) titles_in_order
                    [l1; l2; l3; l4; l5]
               /\ (stats = PDict [] ->
                   Forall (fun l => NA `suffix_of` l) [l1; l2; l3; l4; l5]
                   /\ List.map len [l1; l2; l3; l4; l5] = [52; 52; 53; 52; 53])).
  { intros stats Hprint.
    destruct (format_lines_ok configs stats [] Hprint configs_widths)
      as (added & Hfmt & Hall).
    unfold configs in Hall.
    apply Forall2_cons_inv_l in Hall as (l1 & k1 & (P1 & _ & _ & E1) & Hall & ->).
    apply Forall2_cons_inv_l in Hall as (l2 & k2 & (P2 & _ & _ & E2) & Hall & ->).
    apply Forall2_cons_inv_l in Hall as (l3 & k3 & (P3 & _ & _ & E3) & Hall & ->).
    apply Forall2_cons_inv_l in Hall as (l4 & k4 & (P4 & _ & _ & E4) & Hall & ->).
    apply Forall2_cons_inv_l in Hall as (l5 & k5 & (P5 & _ & _ & E5) & Hall & ->).
    apply Forall2_nil_inv_l in Hall as ->.
    exists l1, l2, l3, l4, l5. split; [exact Hfmt |]. split.
    - unfold titles_in_order.
      constructor; [exact P1 |]. constructor; [exact P2 |].
      constructor; [exact P3 |]. constructor; [exact P4 |].
      constructor; [exact P5 | constructor].
    - intros ->.
      destruct (E1 eq_refl) as [S1 L1]. destruct (E2 eq_refl) as [S2 L2].
      destruct (E3 eq_refl) as [S3 L3]. destruct (E4 eq_refl) as [S4 L4].
      destruct (E5 eq_refl) as [S5 L5].
      split; [repeat (constructor; [assumption |]); constructor |].
      cbn [List.map]. rewrite L1, L2, L3, L4, L5. reflexivity. }
  split; [exact Hfive |].
  split.
  { destruct (Hfive (PDict [])) as (l1 & l2 & l3 & l4 & l5 & Hfmt & Hpre & Hempty).
    - intros key emoji label width r _ Hfound. discriminate Hfound.
    - destruct (Hempty eq_refl) as [Hna Hlen].
      exists l1, l2, l3, l4, l5. tauto. }
  split.
  { intros stats lines Hfmt.
    destruct (format_lines_shape configs stats [] lines Hfmt) as (added & -> & Hall).
    unfold configs in Hall.
    apply Forall2_cons_inv_l in Hall as (l1 & k1 & P1 & Hall & ->).
    apply Forall2_cons_inv_l in Hall as (l2 & k2 & P2 & Hall & ->).
    apply Forall2_cons_inv_l in Hall as (l3 & k3 & P3 & Hall & ->).
    apply Forall2_cons_inv_l in Hall as (l4 & k4 & P4 & Hall & ->).
    apply Forall2_cons_inv_l in Hall as (l5 & k5 & P5 & Hall & ->).
    apply Forall2_nil_inv_l in Hall as ->.
    exists l1, l2, l3, l4, l5. split; [reflexivity |].
    unfold titles_in_order.
    constructor; [exact P1 |]. constructor; [exact P2 |].
    constructor; [exact P3 |]. constructor; [exact P4 |].
    constructor; [exact P5 | constructor]. }
  split.
  { intros stats e Hfmt. split; [exact (format_lines_raises _ _ _ _ Hfmt) |].
    intros Hprint.
    destruct (Hfive stats Hprint) as (l1 & l2 & l3 & l4 & l5 & Hok & _).
    rewrite Hok in Hfmt. discriminate Hfmt. }
  intros stats w1 Hfetch Hprint.
  destruct (Hfive stats Hprint) as (l1 & l2 & l3 & l4 & l5 & Hfmt & _).
  destruct (get_chess_com_stats_world user w) as (out1 & Hw1 & _).
  rewrite Hfetch in Hw1. cbn [snd] in Hw1. subst w1.
  destruct (update_gist_sent GIST_TITLE (join [10%N] [l1; l2; l3; l4; l5])
              gist_id token (extend w out1 [stats_request user]) Hg Ht)
    as (res & out2 & Hup & _).
  exists [l1; l2; l3; l4; l5]. eexists.
  split; [exact Hfmt |]. split; [reflexivity |].
  rewrite (main_run w gist_id token user) by assumption.
  rewrite Hfetch, Hfmt, Hup. cbn [snd]. split.
  - unfold extend. cbn [sent]. rewrite <- app_assoc. reflexivity.
  - reflexivity.
Qed.

(** C6. When one of the three required variables is absent from the
    environment, [main] prints the missing names and leaves through
    [sys.exit(1)]: the exit status is 1 and no request has been sent,
    neither the GET nor the PATCH. The same holds for the whole script
    when the command line does not set the variables. *)
Theorem main_missing_config (w : world) (name : str) :
  In name REQUIRED_ENVS ->
  environ w !! name = None ->
  exists absent : list str,
    absent = List.filter (env_missing w) REQUIRED_ENVS
    /\ In name absent
    /\ main w = (Raise (SystemExit 1), extend w [missing_message absent] [])
    /\ exit_status (fst (main w)) = 1
    /\ sent (snd (main w)) = sent w
    /\ (forall argv : list str,
          length argv <> 5%nat ->
          script argv w
          = (Raise (SystemExit 1), extend w [missing_message absent] [])).
Proof.
  intros Hreq Habs.
  exists (List.filter (env_missing w) REQUIRED_ENVS).
  assert (Hin : In name (List.filter (env_missing w) REQUIRED_ENVS)).
  { apply List.filter_In. split; [exact Hreq |].
    unfold env_missing. now rewrite Habs. }
  assert (Hmain : main w
                  = (Raise (SystemExit 1),
                     extend w [missing_message
                                 (List.filter (env_missing w) REQUIRED_ENVS)] [])).
  { destruct (main_cases w) as [[Hf _] | [_ Hmain]]; [| exact Hmain].
    rewrite Hf in Hin. destruct Hin. }
  split; [reflexivity |].
  split; [exact Hin |].
  split; [exact Hmain |].
  split; [now rewrite Hmain |].
  split; [rewrite Hmain; unfold extend; simpl; apply app_nil_r |].
  intros argv Hlen. unfold script, cli_overrides, bind.
  destruct (decide (length argv = 5%nat)) as [Heq|_]; [contradiction |].
  unfold ret. now rewrite Hmain.
Qed.

(** C7. For an answer with status 200 and the JSON body [null],
    [get_chess_com_stats] returns [None], not a mapping. For a body in
    which the parser meets an integer over the digit cap it raises
    [ValueError], and for a user name outside Latin-1 on a server that
    answers it raises [UnicodeEncodeError]: neither is an error of
    [requests], so the [except] clause lets both through. *)
Theorem get_chess_com_stats_null_body :
  remote (fresh_world full_environ (answering PNone)) (stats_request (lit "hikaru"))
  = Responded (mkResponse 200 [] (Parsed PNone))
  /\ fst (get_chess_com_stats (lit "hikaru") (fresh_world full_environ (answering PNone)))
     = Ok PNone
  /\ (forall items : list (str * pyval),
        fst (get_chess_com_stats (lit "hikaru")
               (fresh_world full_environ (answering PNone)))
        <> Ok (PDict items))
  /\ fst (get_chess_com_stats (lit "hikaru")
            (fresh_world full_environ
               (fun _ => Responded (mkResponse 200 [] (OverLimit DigitLimit)))))
     = Raise ValueError
  /\ fst (get_chess_com_stats [0x26A1%N]
            (fresh_world full_environ (answering (PDict []))))
     = Raise UnicodeEncodeError.
Proof.
  split; [reflexivity |]. split; [reflexivity |].
  split; [| split; reflexivity].
  intros items E. vm_compute in E. discriminate E.
Qed.

(** C8, as the code has it. With exactly five command-line tokens the
    third, fourth and fifth token ([sys.argv[2]], [sys.argv[3]],
    [sys.argv[4]]) become the gist identifier, the access token and the
    username of the environment, and nothing else changes; with any other
    number of tokens the command line is ignored. *)
Theorem cli_overrides_five_tokens (argv : list str) (w : world) :
  (length argv = 5%nat ->
   exists (g t u : str) (env' : gmap str str),
     argv !! 2%nat = Some g /\ argv !! 3%nat = Some t /\ argv !! 4%nat = Some u
     /\ cli_overrides argv w = (Ok tt, with_environ w env')
     /\ env' !! ENV_VAR_GIST_ID = Some g
     /\ env' !! ENV_VAR_GITHUB_TOKEN = Some t
     /\ env' !! ENV_VAR_CHESS_COM_USERNAME = Some u
     /\ (forall name : str, ~ In name REQUIRED_ENVS -> env' !! name = environ w !! name))
  /\ (length argv <> 5%nat -> cli_overrides argv w = (Ok tt, w)).
Proof.
  assert (Hgt : ENV_VAR_GIST_ID <> ENV_VAR_GITHUB_TOKEN) by (vm_compute; discriminate).
  assert (Hgu : ENV_VAR_GIST_ID <> ENV_VAR_CHESS_COM_USERNAME) by (vm_compute; discriminate).
  assert (Htu : ENV_VAR_GITHUB_TOKEN <> ENV_VAR_CHESS_COM_USERNAME) by (vm_compute; discriminate).
  split.
  - intros Hlen.
    destruct argv as [|a0 [|a1 [|g [|t [|u [|extra rest]]]]]]; try discriminate Hlen.
    exists g, t, u.
    exists (<[ENV_VAR_CHESS_COM_USERNAME := u]>
              (<[ENV_VAR_GITHUB_TOKEN := t]>
                 (<[ENV_VAR_GIST_ID := g]> (environ w)))).
    split; [reflexivity |]. split; [reflexivity |]. split; [reflexivity |].
    split; [reflexivity |].
    split; [rewrite lookup_insert_ne, lookup_insert_ne, lookup_insert_eq; congruence |].
    split; [rewrite lookup_insert_ne, lookup_insert_eq; congruence |].
    split; [apply lookup_insert_eq |].
    intros name Hname.
    rewrite !lookup_insert_ne; [reflexivity | | |];
      intros <-; apply Hname; unfold REQUIRED_ENVS; simpl; tauto.
  - intros Hlen. unfold cli_overrides.
    destruct (decide (length argv = 5%nat)); [contradiction | reflexivity].
Qed.

End Process.

(** * Further properties of the formatter and the extractor *)

Section FormatterLaws.


End FormatterLaws.

Section ProcessLaws.

Context `{Interpreter}.

(** X5. For any list of configurations whose widths leave room for the
    title, the two boundary spaces and "N/A", and any payload whose
    selected ratings can be printed, the loop of [main] raises nothing
    and appends one line per configuration, in order, to the lines built
    before; each line starts with its title and a space, ends with a
    space and then "N/A" or a value ending in the trend glyph, and is at
    least as long as its configured width; the line of a configuration
    whose rating is not in the payload ends in "N/A" and has exactly the
    configured width. *)
Theorem format_lines_any_configs (cfgs : list (str * str * str * Z))
    (stats : pyval) (lines : list str) :
  printable_ratings stats cfgs ->
  Forall (fun cfg : str * str * str * Z =>
            let '(key, emoji, label, width) := cfg in
            len emoji + len label + 6 <= width) cfgs ->
  exists added : list str,
    format_lines cfgs stats lines = Ok (lines ++ added)
    /\ Forall2
         (fun (cfg : str * str * str * Z) (l : str) =>
            let '(key, emoji, label, width) := cfg in
            (emoji ++ lit " " ++ label ++ lit " ") `prefix_of` l
            /\ ((lit " " ++ NA) `suffix_of` l \/ TREND `suffix_of` l)
            /\ width <= len l
            /\ (lookup_path stats [key; selected_field label; lit "rating"] = None ->
                NA `suffix_of` l /\ len l = width))
         cfgs added.
Proof.
  intros Hprint Hwidths. exact (format_lines_ok cfgs stats lines Hprint Hwidths).
Qed.

(** X6. [validate_and_init] raises nothing, sends nothing and leaves the
    environment alone. It returns [True] exactly when each of the three
    required variables is set to a non-empty string, and then it prints
    nothing; a variable set to the empty string counts as missing. *)
Theorem validate_and_init_true_iff (w : world) :
  exists (b : bool) (out : list str),
    validate_and_init w = (Ok b, extend w out [])
    /\ (b = true
        <-> forall name : str,
              In name REQUIRED_ENVS ->
              exists v : str, environ w !! name = Some v /\ v <> [])
    /\ (b = true -> out = [])
    /\ (b = false ->
        out = [missing_message (List.filter (env_missing w) REQUIRED_ENVS)]).
Proof.
  rewrite validate_and_init_run.
  pose proof (required_present w) as Hpresent.
  destruct (List.filter (env_missing w) REQUIRED_ENVS) as [|a absent].
  - exists true, []. split.
    + now rewrite extend_nil.
    + split; [split; [intros _; now apply Hpresent | reflexivity] |].
      split; [reflexivity | discriminate].
  - exists false, [missing_message (a :: absent)]. split; [reflexivity |].
    split; [split; [discriminate | intros Hall; apply Hpresent in Hall; discriminate Hall] |].
    split; [discriminate | reflexivity].
Qed.

(** X7. A required variable that is set to the empty string stops the
    run like an absent one: [main] prints the missing names, exits with
    status 1 and sends nothing. *)
Theorem main_empty_value_exits (w : world) (name : str) :
  In name REQUIRED_ENVS ->
  environ w !! name = Some [] ->
  In name (List.filter (env_missing w) REQUIRED_ENVS)
  /\ main w
     = (Raise (SystemExit 1),
        extend w [missing_message (List.filter (env_missing w) REQUIRED_ENVS)] [])
  /\ exit_status (fst (main w)) = 1
  /\ sent (snd (main w)) = sent w.
Proof.
  intros Hreq Hempty.
  assert (Hin : In name (List.filter (env_missing w) REQUIRED_ENVS)).
  { apply List.filter_In. split; [exact Hreq |].
    unfold env_missing. rewrite Hempty. reflexivity. }
  split; [exact Hin |].
  destruct (main_cases w) as [[Hf _] | [_ Hmain]].
  - rewrite Hf in Hin. destruct Hin.
  - rewrite Hmain. split; [reflexivity |]. split; [reflexivity |].
    unfold extend. simpl. apply app_nil_r.
Qed.

(** X8. [main] never changes the environment and only adds to the output
    and to the requests. It lets no [KeyError] and no error of
    [requests] escape. When it returns normally it has issued exactly
    two requests, the GET for the user of the environment and then the
    PATCH for the gist of the environment. It leaves through [sys.exit]
    exactly when a required variable is missing, and then with status 1,
    after the one line of the validation check and without any request. *)
Theorem main_outcomes (w : world) :
  exists (out : list str) (reqs : list request),
    snd (main w) = extend w out reqs
    /\ (forall k : str, fst (main w) <> Raise (KeyError k))
    /\ (forall m : str, fst (main w) <> Raise (RequestException m))
    /\ (fst (main w) = Ok tt ->
        exists req1 req2 : request,
          reqs = [req1; req2]
          /\ method req1 = lit "GET" /\ method req2 = lit "PATCH"
          /\ (exists user : str,
                environ w !! ENV_VAR_CHESS_COM_USERNAME = Some user
                /\ url req1 = STATS_URL user)
          /\ (exists gist_id : str,
                environ w !! ENV_VAR_GIST_ID = Some gist_id
                /\ url req2 = lit "https://api.github.com/gists/" ++ gist_id))
    /\ (forall code : Z,
          fst (main w) = Raise (SystemExit code) ->
          code = 1 /\ reqs = []
          /\ List.filter (env_missing w) REQUIRED_ENVS <> []
          /\ out = [missing_message (List.filter (env_missing w) REQUIRED_ENVS)])
    /\ (List.filter (env_missing w) REQUIRED_ENVS <> [] ->
        fst (main w) = Raise (SystemExit 1)).
Proof.
  destruct (main_cases w) as [[Hf (g & t & u & [Hg Hg'] & [Ht Ht'] & [Hu Hu'])] | [Hf Hmain]].
  - destruct (main_validated w g t u Hg Hg' Ht Ht' Hu Hu')
      as (res & out & reqs & Hmain & Hres).
    exists out, reqs. rewrite Hmain. cbn [fst snd]. split; [reflexivity |].
    destruct Hres as [[-> (content & ->)] | (e & -> & He & Hreqs)].
    + split; [discriminate |]. split; [discriminate |].
      split; [| split; [discriminate | contradiction]].
      intros _. do 2 eexists. split; [reflexivity |].
      split; [reflexivity |]. split; [reflexivity |].
      split; [exists u | exists g]; split; solve [assumption | reflexivity].
    + split; [intros k E; injection E as ->; destruct He as [E|[E|[E|E]]]; discriminate E |].
      split; [intros m E; injection E as ->; destruct He as [E|[E|[E|E]]]; discriminate E |].
      split; [discriminate |].
      split; [intros code E; injection E as ->;
              destruct He as [E|[E|[E|E]]]; discriminate E | contradiction].
  - do 2 eexists. rewrite Hmain. cbn [fst snd]. split; [reflexivity |].
    split; [discriminate |]. split; [discriminate |]. split; [discriminate |].
    split; [| reflexivity].
    intros code E. injection E as <-. split; [reflexivity |].
    split; [reflexivity |]. split; [exact Hf | reflexivity].
Qed.

(** The one header of the GET can be encoded exactly when the user name
    is within Latin-1. *)
Lemma stats_headers_encodable (user : str) :
  headers_encodable (headers (stats_request user)) = forallb is_latin1 user.
Proof.
  unfold stats_request, headers_encodable. cbn [headers forallb fst snd].
  rewrite !forallb_app.
  change (forallb is_ascii (lit "User-Agent")) with true.
  change (forallb is_latin1 (lit "chess-com-box-py (@")) with true.
  change (forallb is_latin1 (lit ")")) with true.
  cbn [andb]. now rewrite !andb_true_r.
Qed.

(** X14. [get_chess_com_stats] calls [requests.get] exactly once, leaves
    the environment alone and lets no error of [requests] escape. When
    the request fails, or is answered with a 4xx or 5xx status or with a
    body that is not JSON, it prints the error and returns the empty
    mapping, provided the standard output can encode the line. When the
    request is answered with another status and a body that parses, it
    returns the parsed body as it is and prints nothing. A limit of the
    interpreter hit while parsing leaves the function as [ValueError] or
    [RecursionError], and a user name outside Latin-1, on a server that
    can be reached, as [UnicodeEncodeError]. *)
Theorem get_chess_com_stats_outcomes (user : str) (w : world) :
  sent (snd (get_chess_com_stats user w)) = sent w ++ [stats_request user]
  /\ environ (snd (get_chess_com_stats user w)) = environ w
  /\ (forall m : str, fst (get_chess_com_stats user w) <> Raise (RequestException m))
  /\ (forall msg : str,
        remote w (stats_request user) = Failed msg ->
        encodable w (fetch_error_line msg) = true ->
        get_chess_com_stats user w
        = (Ok (PDict []), extend w [fetch_error_line msg] [stats_request user]))
  /\ (forall r : response,
        remote w (stats_request user) = Responded r ->
        forallb is_latin1 user = false ->
        get_chess_com_stats user w
        = (Raise UnicodeEncodeError, extend w [] [stats_request user]))
  /\ (forall r : response,
        remote w (stats_request user) = Responded r ->
        forallb is_latin1 user = true ->
        (error_status r = true ->
         encodable w (fetch_error_line (http_error_text r)) = true ->
         get_chess_com_stats user w
         = (Ok (PDict []),
            extend w [fetch_error_line (http_error_text r)] [stats_request user]))
        /\ (error_status r = false ->
            match json_body r with
            | Parsed v =>
                get_chess_com_stats user w = (Ok v, extend w [] [stats_request user])
            | Malformed msg =>
                encodable w (fetch_error_line msg) = true ->
                get_chess_com_stats user w
                = (Ok (PDict []), extend w [fetch_error_line msg] [stats_request user])
            | OverLimit e =>
                get_chess_com_stats user w
                = (Raise (limit_exn e), extend w [] [stats_request user])
            end)).
Proof.
  destruct (get_chess_com_stats_world user w) as (out & Hw & Hraise).
  split; [rewrite Hw; reflexivity |].
  split; [rewrite Hw; reflexivity |].
  split.
  { intros m E. destruct (Hraise _ E) as [E' | [E' | E']]; discriminate E'. }
  rewrite get_chess_com_stats_run. unfold fetch_step_of.
  rewrite stats_headers_encodable.
  split; [| split].
  - intros msg -> Henc. now rewrite Henc.
  - intros r -> ->. reflexivity.
  - intros r -> ->. split.
    + intros -> Henc. now rewrite Henc.
    + intros ->. destruct (json_body r) as [v|msg|e]; [reflexivity | | reflexivity].
      intros Henc. now rewrite Henc.
Qed.


(** X10. [update_gist] reads the token and then the gist identifier
    before it tries anything: when one of them is absent it raises
    [KeyError] with the name of the variable, prints nothing and sends
    nothing. *)
Theorem update_gist_missing_variable (title content : str) (w : world) :
  (environ w !! ENV_VAR_GITHUB_TOKEN = None ->
   update_gist title content w = (Raise (KeyError ENV_VAR_GITHUB_TOKEN), w))
  /\ (forall token : str,
        environ w !! ENV_VAR_GITHUB_TOKEN = Some token ->
        environ w !! ENV_VAR_GIST_ID = None ->
        update_gist title content w = (Raise (KeyError ENV_VAR_GIST_ID), w)).
Proof.
  split.
  - intros Ht. unfold update_gist, bind, environ_getitem. rewrite Ht. reflexivity.
  - intros token Ht Hg. unfold update_gist, bind, environ_getitem.
    rewrite Ht, Hg. reflexivity.
Qed.

(** The script, once the command-line block is done. *)
Lemma script_run (argv : list str) (w : world) (env' : gmap str str) :
  cli_overrides argv w = (Ok tt, with_environ w env') ->
  script argv w
  = match main (with_environ w env') with
    | (Ok _, w2) => (Ok tt, extend w2 [elapsed_line w2] [])
    | (Raise e, w2) => (Raise e, w2)
    end.
Proof.
  intros Hcli. unfold script. unfold bind at 1. rewrite Hcli.
  unfold bind at 1.
  destruct (main (with_environ w env')) as [[[]|e] w2]; [| reflexivity].
  apply script_tail.
Qed.

(** X11. Reading [sys.argv] never raises, and no [KeyError] leaves the
    script. Its exit status is 0 or 1. It is 0 only when the script ran
    to its end: two requests were issued and the last thing printed is
    the elapsed time. When a required variable is missing from the
    environment as the command line left it, the exit status is 1, no
    request was issued and the elapsed time is not printed. *)
Theorem script_outcomes (argv : list str) (w : world) :
  exists w1 : world,
    cli_overrides argv w = (Ok tt, w1)
    /\ (exit_status (fst (script argv w)) = 0
        \/ exit_status (fst (script argv w)) = 1)
    /\ fst (script argv w) <> Raise IndexError
    /\ (forall k : str, fst (script argv w) <> Raise (KeyError k))
    /\ (exit_status (fst (script argv w)) = 0 ->
        exists (out : list str) (req1 req2 : request),
          script argv w
          = (Ok tt, extend w1 (out ++ [elapsed_line w]) [req1; req2]))
    /\ (List.filter (env_missing w1) REQUIRED_ENVS <> [] ->
        exit_status (fst (script argv w)) = 1
        /\ script argv w
           = (Raise (SystemExit 1),
              extend w1
                [missing_message (List.filter (env_missing w1) REQUIRED_ENVS)]
                [])).
Proof.
  destruct (cli_overrides_run argv w) as (env' & Hcli & _).
  exists (with_environ w env'). split; [exact Hcli |].
  rewrite (script_run argv w env' Hcli).
  destruct (main_cases (with_environ w env'))
    as [[Hf (g & t & u & [Hg Hg'] & [Ht Ht'] & [Hu Hu'])] | [Hf Hmain]].
  - destruct (main_validated (with_environ w env') g t u Hg Hg' Ht Ht' Hu Hu')
      as (res & out & reqs & Hmain & Hres).
    rewrite Hmain.
    destruct Hres as [[-> (content & ->)] | (e & -> & He & Hreqs)].
    + cbn [fst exit_status]. split; [now left |].
      split; [discriminate |]. split; [discriminate |].
      split; [| contradiction].
      intros _. exists out. do 2 eexists.
      rewrite extend_extend, app_nil_r. reflexivity.
    + cbn [fst].
      assert (Hexit : exit_status (@Raise unit e) = 1)
        by (destruct He as [-> | [-> | [-> | ->]]]; reflexivity).
      rewrite Hexit. split; [now right |].
      split; [intros E; injection E as ->; destruct He as [E|[E|[E|E]]]; discriminate E |].
      split; [intros k E; injection E as ->; destruct He as [E|[E|[E|E]]]; discriminate E |].
      split; [discriminate | contradiction].
  - rewrite Hmain. cbn [fst exit_status]. split; [now right |].
    split; [discriminate |]. split; [discriminate |].
    split; [discriminate |]. intros _. split; reflexivity.
Qed.

(** X12. With five command-line tokens whose last three are non-empty
    the run does not depend on what the environment held for the three
    variables: it passes the validation check, the first request is the
    GET for the statistics of [sys.argv[4]], and the only request that
    can follow is the PATCH to the gist [sys.argv[2]] with [sys.argv[3]]
    as bearer. When the script returns, both were issued, the elapsed
    time is printed last and the exit status is 0. *)
Theorem script_five_tokens_run (p a g t u : str) (w : world) :
  g <> [] -> t <> [] -> u <> [] ->
  exists (env' : gmap str str) (out : list str) (reqs : list request),
    cli_overrides [p; a; g; t; u] w = (Ok tt, with_environ w env')
    /\ env' !! ENV_VAR_GIST_ID = Some g
    /\ env' !! ENV_VAR_GITHUB_TOKEN = Some t
    /\ env' !! ENV_VAR_CHESS_COM_USERNAME = Some u
    /\ snd (script [p; a; g; t; u] w) = extend (with_environ w env') out reqs
    /\ (reqs = [stats_request u]
        \/ exists content : str,
             reqs = [stats_request u; gist_request g t GIST_TITLE content])
    /\ (forall code : Z, fst (script [p; a; g; t; u] w) <> Raise (SystemExit code))
    /\ (fst (script [p; a; g; t; u] w) = Ok tt ->
        exit_status (fst (script [p; a; g; t; u] w)) = 0
        /\ (exists content : str,
              reqs = [stats_request u; gist_request g t GIST_TITLE content])
        /\ exists out' : list str, out = out' ++ [elapsed_line w]).
Proof.
  intros Hg Ht Hu.
  assert (Hgt : ENV_VAR_GIST_ID <> ENV_VAR_GITHUB_TOKEN) by (vm_compute; discriminate).
  assert (Hgu : ENV_VAR_GIST_ID <> ENV_VAR_CHESS_COM_USERNAME) by (vm_compute; discriminate).
  assert (Htu : ENV_VAR_GITHUB_TOKEN <> ENV_VAR_CHESS_COM_USERNAME) by (vm_compute; discriminate).
  destruct (cli_overrides_run [p; a; g; t; u] w) as (env' & Hcli & _ & Henv).
  specialize (Henv p a g t u eq_refl).
  assert (Eg : env' !! ENV_VAR_GIST_ID = Some g).
  { rewrite Henv, lookup_insert_ne, lookup_insert_ne, lookup_insert_eq; congruence. }
  assert (Et : env' !! ENV_VAR_GITHUB_TOKEN = Some t).
  { rewrite Henv, lookup_insert_ne, lookup_insert_eq; congruence. }
  assert (Eu : env' !! ENV_VAR_CHESS_COM_USERNAME = Some u).
  { rewrite Henv. apply lookup_insert_eq. }
  destruct (main_validated (with_environ w env') g t u Eg Hg Et Ht Eu Hu)
    as (res & out & reqs & Hmain & Hres).
  exists env'.
  rewrite (script_run [p; a; g; t; u] w env' Hcli), Hmain.
  destruct Hres as [[-> (content & ->)] | (e & -> & He & Hreqs)].
  - exists (out ++ [elapsed_line w]). eexists.
    split; [exact Hcli |]. split; [exact Eg |]. split; [exact Et |].
    split; [exact Eu |]. cbn [fst snd].
    split; [rewrite extend_extend, app_nil_r; reflexivity |].
    split; [right; eexists; reflexivity |].
    split; [discriminate |].
    intros _. split; [reflexivity |].
    split; [eexists; reflexivity | eexists; reflexivity].
  - exists out, reqs.
    split; [exact Hcli |]. split; [exact Eg |]. split; [exact Et |].
    split; [exact Eu |]. cbn [fst snd].
    split; [reflexivity |]. split; [exact Hreqs |].
    split; [intros code E; injection E as ->;
            destruct He as [E|[E|[E|E]]]; discriminate E | discriminate].
Qed.

(** X13. When the fetch of a run that passed the validation check ends in
    an error of [requests] (the request fails, or it is answered, with
    headers that can be encoded, by a 4xx or 5xx status or by a body that
    is not JSON) and the error line can be printed, the run goes on to
    publish: the error line is printed first, and [requests.patch] is
    called with five lines that all end in "N/A" and have the lengths 52,
    52, 53, 52 and 53. *)
Theorem main_fetch_failed_publishes_na (w : world) (gist_id token user msg : str) :
  environ w !! ENV_VAR_GIST_ID = Some gist_id -> gist_id <> [] ->
  environ w !! ENV_VAR_GITHUB_TOKEN = Some token -> token <> [] ->
  environ w !! ENV_VAR_CHESS_COM_USERNAME = Some user -> user <> [] ->
  fetch_step_of (stats_request user) (remote w (stats_request user)) = FetchFailed msg ->
  encodable w (lit "Error fetching Chess.com stats: " ++ msg) = true ->
  exists (lines : list str) (req : request) (rest : list str),
    sent (snd (main w)) = sent w ++ [stats_request user; req]
    /\ stdout (snd (main w))
       = stdout w ++ (lit "Error fetching Chess.com stats: " ++ msg) :: rest
    /\ gist_content req = Some (join [10%N] lines)
    /\ Forall (fun l => NA `suffix_of` l) lines
    /\ List.map len lines = [52; 52; 53; 52; 53].
Proof.
  intros Hg Hg' Ht Ht' Hu Hu' Hstep Henc.
  assert (Hfetch : get_chess_com_stats user w
                   = (Ok (PDict []),
                      extend w [fetch_error_line msg] [stats_request user])).
  { rewrite get_chess_com_stats_run, Hstep.
    change (encodable w (fetch_error_line msg))
      with (encodable w (lit "Error fetching Chess.com stats: " ++ msg)).
    now rewrite Henc. }
  assert (Hprint : printable_ratings (PDict []) configs).
  { intros key emoji label width r _ Hfound. discriminate Hfound. }
  destruct (format_lines_ok configs (PDict []) [] Hprint configs_widths)
    as (added & Hfmt & Hall).
  unfold configs in Hall.
  apply Forall2_cons_inv_l in Hall as (l1 & k1 & (_ & _ & _ & E1) & Hall & ->).
  apply Forall2_cons_inv_l in Hall as (l2 & k2 & (_ & _ & _ & E2) & Hall & ->).
  apply Forall2_cons_inv_l in Hall as (l3 & k3 & (_ & _ & _ & E3) & Hall & ->).
  apply Forall2_cons_inv_l in Hall as (l4 & k4 & (_ & _ & _ & E4) & Hall & ->).
  apply Forall2_cons_inv_l in Hall as (l5 & k5 & (_ & _ & _ & E5) & Hall & ->).
  apply Forall2_nil_inv_l in Hall as ->.
  destruct (E1 eq_refl) as [S1 L1]. destruct (E2 eq_refl) as [S2 L2].
  destruct (E3 eq_refl) as [S3 L3]. destruct (E4 eq_refl) as [S4 L4].
  destruct (E5 eq_refl) as [S5 L5].
  destruct (update_gist_sent GIST_TITLE (join [10%N] [l1; l2; l3; l4; l5])
              gist_id token (extend w [fetch_error_line msg] [stats_request user])
              Hg Ht)
    as (res & out2 & Hup & _).
  exists [l1; l2; l3; l4; l5]. eexists. exists out2.
  rewrite (main_run w gist_id token user) by assumption.
  rewrite Hfetch, Hfmt. cbn [app]. rewrite Hup. cbn [snd].
  split; [unfold extend; cbn [sent]; rewrite <- app_assoc; reflexivity |].
  split; [unfold extend; cbn [stdout]; rewrite <- app_assoc; reflexivity |].
  split; [reflexivity |].
  split; [repeat (constructor; [assumption |]); constructor |].
  cbn [List.map]. rewrite L1, L2, L3, L4, L5. reflexivity.
Qed.

End ProcessLaws.

(** * The model at concrete inputs *)

(** The texts used below are not empty. *)
Lemma abc123_nonempty : lit "abc123" <> [].
Proof. intros E. vm_compute in E. discriminate E. Qed.

Lemma t0ken_nonempty : lit "t0ken" <> [].
Proof. intros E. vm_compute in E. discriminate E. Qed.

Lemma hikaru_nonempty : lit "hikaru" <> [].
Proof. intros E. vm_compute in E. discriminate E. Qed.

(** Under the default interpreter the number [10 ^ 4300], which has 4301
    digits, stops the extractor. *)
Lemma blitz_rating_over_cap :
  @get_rating_line plain_interpreter (lit "chess_blitz") [0x26A1%N] (lit "Blitz")
    (blitz_payload (PInt (10 ^ 4300)))
  = Raise ValueError.
Proof.
  apply (@get_rating_line_over_cap plain_interpreter
           (lit "chess_blitz") [0x26A1%N] (lit "Blitz")
           (blitz_payload (PInt (10 ^ 4300))) (10 ^ 4300)).
  - apply blitz_payload_rating.
  - apply Z.pow_nonzero; [discriminate | discriminate].
  - change (@int_max_str_digits plain_interpreter) with 4300%nat.
    apply Nat.lt_0_succ.
  - change (@int_max_str_digits plain_interpreter) with 4300%nat.
    change (10 ^ 4300) with (10 ^ Z.of_nat 4300).
    rewrite dec_digits_pow10. apply Nat.lt_succ_diag_r.
Qed.

(** With the rating 1500 for Blitz, the ratings that the configurations
    select can be printed. *)
Lemma blitz_1500_printable :
  @printable_ratings plain_interpreter (blitz_payload (PInt 1500)) configs.
Proof.
  intros key emoji label width r Hin Hfound Ht.
  unfold configs in Hin. cbn [In] in Hin.
  destruct Hin as [E | [E | [E | [E | [E | []]]]]];
    injection E as <- <- <- <-; vm_compute in Hfound; try discriminate Hfound.
  injection Hfound as <-. eexists.
  split; [reflexivity | vm_compute; discriminate].
Qed.

(** In the empty payload there is no rating to print. *)
Lemma empty_payload_printable (cfgs : list (str * str * str * Z)) :
  @printable_ratings plain_interpreter (PDict []) cfgs.
Proof. intros key emoji label width r _ Hfound. discriminate Hfound. Qed.



(** The Blitz line for the rating 1500 at width 52. *)
Lemma get_adjusted_line_width_blitz :
  len ([0x26A1%N] ++ lit " Blitz") + len (lit "1500" ++ TREND) + 3 <= 52
  /\ exists line : str,
       get_adjusted_line
         (mkTitleAndValue ([0x26A1%N] ++ lit " Blitz") (lit "1500" ++ TREND)) 52
       = Ok line
       /\ len line = 52.
Proof.
  split; [vm_compute; discriminate |].
  apply (get_adjusted_line_width ([0x26A1%N] ++ lit " Blitz") (lit "1500" ++ TREND) 52).
  vm_compute; discriminate.
Defined.

(** One payload with both sub-fields, read with the label "Tactics" and
    with the label "Blitz". *)
Lemma get_rating_line_field_both :
  (lit "Tactics" = lit "Tactics"
   /\ @get_rating_line plain_interpreter (lit "tactics") [0x1F9E9%N] (lit "Tactics")
        (tactics_payload (PInt 1800) (PInt 1200))
      = Ok (mkTitleAndValue ([0x1F9E9%N] ++ lit " " ++ lit "Tactics")
              (lit "1800" ++ TREND)))
  /\ (lit "Blitz" <> lit "Tactics"
      /\ @get_rating_line plain_interpreter (lit "tactics") [0x26A1%N] (lit "Blitz")
           (tactics_payload (PInt 1800) (PInt 1200))
         = Ok (mkTitleAndValue ([0x26A1%N] ++ lit " " ++ lit "Blitz")
                 (lit "1200" ++ TREND))).
Proof.
  assert (Hne : lit "Blitz" <> lit "Tactics")
    by (intros E; vm_compute in E; discriminate E).
  split; (split; [first [reflexivity | exact Hne] |]).
  - rewrite (proj1 (@get_rating_line_field plain_interpreter
                      (lit "tactics") [0x1F9E9%N] (lit "Tactics")
                      (tactics_payload (PInt 1800) (PInt 1200))) eq_refl).
    reflexivity.
  - rewrite (proj2 (@get_rating_line_field plain_interpreter
                      (lit "tactics") [0x26A1%N] (lit "Blitz")
                      (tactics_payload (PInt 1800) (PInt 1200))) Hne).
    reflexivity.
Defined.

(** C4, as stated, fails twice. For the payload
    [{"chess_blitz": {"last": {"rating": 0}}}] the rating number 0 is
    found at the selected path, and the value is "N/A", not "0" followed
    by the glyph. For the rating [10 ** 4300] nothing is returned:
    [ValueError] is raised under the default digit cap. *)
Lemma get_rating_line_zero_not_rendered :
  (lookup_path (blitz_payload (PInt 0))
     [lit "chess_blitz"; selected_field (lit "Blitz"); lit "rating"] = Some (PInt 0)
   /\ @get_rating_line plain_interpreter (lit "chess_blitz") [0x26A1%N] (lit "Blitz")
        (blitz_payload (PInt 0))
      = Ok (mkTitleAndValue ([0x26A1%N] ++ lit " " ++ lit "Blitz") (lit "N/A"))
   /\ @get_rating_line plain_interpreter (lit "chess_blitz") [0x26A1%N] (lit "Blitz")
        (blitz_payload (PInt 0))
      <> Ok (mkTitleAndValue ([0x26A1%N] ++ lit " " ++ lit "Blitz")
               (decimal 0 ++ TREND)))
  /\ (lookup_path (blitz_payload (PInt (10 ^ 4300)))
        [lit "chess_blitz"; selected_field (lit "Blitz"); lit "rating"]
      = Some (PInt (10 ^ 4300))
      /\ 10 ^ 4300 <> 0
      /\ @get_rating_line plain_interpreter (lit "chess_blitz") [0x26A1%N] (lit "Blitz")
           (blitz_payload (PInt (10 ^ 4300)))
         = Raise ValueError).
Proof.
  split.
  - split; [reflexivity |]. split; [reflexivity |].
    intros E. vm_compute in E. discriminate E.
  - split; [apply blitz_payload_rating |].
    split; [apply Z.pow_nonzero; discriminate | exact blitz_rating_over_cap].
Qed.

(** The payload [{"chess_blitz": {"last": {"rating": 1500}}}]. *)
Lemma get_rating_line_present_1500 :
  (lookup_path (blitz_payload (PInt 1500))
     [lit "chess_blitz"; selected_field (lit "Blitz"); lit "rating"] = Some (PInt 1500)
   /\ 1500 <> 0
   /\ (dec_digits 1500 <= @int_max_str_digits plain_interpreter)%nat)
  /\ @get_rating_line plain_interpreter (lit "chess_blitz") [0x26A1%N] (lit "Blitz")
       (blitz_payload (PInt 1500))
     = Ok (mkTitleAndValue ([0x26A1%N] ++ lit " " ++ lit "Blitz")
             (lit "1500" ++ TREND)).
Proof.
  assert (Hcap : (dec_digits 1500 <= @int_max_str_digits plain_interpreter)%nat)
    by (apply Nat.leb_le; vm_compute; reflexivity).
  split; [split; [reflexivity | split; [discriminate | exact Hcap]] |].
  apply (proj1 (@get_rating_line_present plain_interpreter
                  (lit "chess_blitz") [0x26A1%N] (lit "Blitz")
                  (blitz_payload (PInt 1500))) 1500);
    [reflexivity | discriminate | right; exact Hcap].
Defined.

(** The rating 0. *)
Lemma get_rating_line_falsy_zero :
  (lookup_path (blitz_payload (PInt 0))
     [lit "chess_blitz"; selected_field (lit "Blitz"); lit "rating"] = Some (PInt 0)
   /\ truthy (PInt 0) = false)
  /\ @get_rating_line plain_interpreter (lit "chess_blitz") [0x26A1%N] (lit "Blitz")
       (blitz_payload (PInt 0))
     = Ok (mkTitleAndValue ([0x26A1%N] ++ lit " " ++ lit "Blitz") NA).
Proof.
  split; [split; reflexivity |].
  apply (proj1 (@get_rating_line_falsy plain_interpreter
                  (lit "chess_blitz") [0x26A1%N] (lit "Blitz")
                  (blitz_payload (PInt 0)) (PInt 0) eq_refl eq_refl)).
Defined.

(** A run with a full environment: the five lines for a payload with the
    Blitz rating 1500, and the run without a network, in which both
    requests are attempted and the five lines are the ones of the empty
    payload. *)
Lemma main_five_lines_offline :
  (environ (fresh_world full_environ offline) !! ENV_VAR_GIST_ID = Some (lit "abc123")
   /\ lit "abc123" <> []
   /\ environ (fresh_world full_environ offline) !! ENV_VAR_GITHUB_TOKEN
      = Some (lit "t0ken")
   /\ lit "t0ken" <> []
   /\ environ (fresh_world full_environ offline) !! ENV_VAR_CHESS_COM_USERNAME
      = Some (lit "hikaru")
   /\ lit "hikaru" <> [])
  /\ (exists l1 l2 l3 l4 l5 : str,
        @format_lines plain_interpreter configs (blitz_payload (PInt 1500)) []
        = Ok [l1; l2; l3; l4; l5]
        /\ Forall2 (fun t l => t `prefix_of` l) titles_in_order [l1; l2; l3; l4; l5])
  /\ (exists (lines : list str) (req : request),
        @format_lines plain_interpreter configs (PDict []) [] = Ok lines
        /\ length lines = 5%nat
        /\ sent (snd (@main plain_interpreter (fresh_world full_environ offline)))
           = [stats_request (lit "hikaru"); req]
        /\ gist_content req = Some (join [10%N] lines)).
Proof.
  assert (Eg : environ (fresh_world full_environ offline) !! ENV_VAR_GIST_ID
               = Some (lit "abc123")) by (vm_compute; reflexivity).
  assert (Et : environ (fresh_world full_environ offline) !! ENV_VAR_GITHUB_TOKEN
               = Some (lit "t0ken")) by (vm_compute; reflexivity).
  assert (Eu : environ (fresh_world full_environ offline) !! ENV_VAR_CHESS_COM_USERNAME
               = Some (lit "hikaru")) by (vm_compute; reflexivity).
  split.
  { split; [exact Eg |]. split; [exact abc123_nonempty |].
    split; [exact Et |]. split; [exact t0ken_nonempty |].
    split; [exact Eu | exact hikaru_nonempty]. }
  destruct (@main_five_lines plain_interpreter (fresh_world full_environ offline)
              (lit "abc123") (lit "t0ken") (lit "hikaru")
              Eg abc123_nonempty Et t0ken_nonempty Eu hikaru_nonempty)
    as (Hlines & _ & _ & _ & Hrun).
  split.
  - destruct (Hlines (blitz_payload (PInt 1500)) blitz_1500_printable)
      as (l1 & l2 & l3 & l4 & l5 & Hfmt & Hprefix & _).
    exists l1, l2, l3, l4, l5. split; [exact Hfmt | exact Hprefix].
  - destruct (Hrun (PDict [])
                (snd (@get_chess_com_stats (lit "hikaru")
                        (fresh_world full_environ offline))))
      as (lines & req & Hfmt & Hlen & Hsent & Hcontent).
    + vm_compute. reflexivity.
    + apply empty_payload_printable.
    + exists lines, req. split; [exact Hfmt |]. split; [exact Hlen |].
      split; [exact Hsent | exact Hcontent].
Defined.

(** A run with an empty environment. *)
Lemma main_missing_config_empty_environ :
  (In ENV_VAR_GIST_ID REQUIRED_ENVS
   /\ environ (fresh_world ∅ offline) !! ENV_VAR_GIST_ID = None)
  /\ exit_status (fst (@main plain_interpreter (fresh_world ∅ offline))) = 1
  /\ sent (snd (@main plain_interpreter (fresh_world ∅ offline))) = [].
Proof.
  split; [split; [left; reflexivity | vm_compute; reflexivity] |].
  destruct (@main_missing_config plain_interpreter (fresh_world ∅ offline)
              ENV_VAR_GIST_ID)
    as (absent & _ & _ & _ & Hexit & Hsent & _);
    [left; reflexivity | vm_compute; reflexivity |].
  split; [exact Hexit | exact Hsent].
Defined.

(** C8, as stated, fails: with exactly four tokens the command line is
    ignored, so that in an empty environment the gist identifier stays
    unset and the script exits with status 1; with five tokens it is
    not ignored. *)
Lemma cli_four_tokens_ignored :
  length [lit "chess_com_box.py"; lit "abc123"; lit "t0ken"; lit "hikaru"] = 4%nat
  /\ cli_overrides [lit "chess_com_box.py"; lit "abc123"; lit "t0ken"; lit "hikaru"]
       (fresh_world ∅ offline)
     = (Ok tt, fresh_world ∅ offline)
  /\ environ (fresh_world ∅ offline) !! ENV_VAR_GIST_ID = None
  /\ exit_status
       (fst (@script plain_interpreter
               [lit "chess_com_box.py"; lit "abc123"; lit "t0ken"; lit "hikaru"]
               (fresh_world ∅ offline)))
     = 1
  /\ environ
       (snd (cli_overrides
               [lit "chess_com_box.py"; lit "test"; lit "abc123"; lit "t0ken";
                lit "hikaru"]
               (fresh_world ∅ offline)))
     !! ENV_VAR_GIST_ID
     = Some (lit "abc123").
Proof.
  repeat split; vm_compute; reflexivity.
Qed.

(** A local run with five tokens, and a run with the program name
    alone. *)
Lemma cli_overrides_five_tokens_local_run :
  (length [lit "chess_com_box.py"; lit "test"; lit "abc123"; lit "t0ken"; lit "hikaru"]
   = 5%nat
   /\ length [lit "chess_com_box.py"] <> 5%nat)
  /\ (exists env' : gmap str str,
        cli_overrides
          [lit "chess_com_box.py"; lit "test"; lit "abc123"; lit "t0ken"; lit "hikaru"]
          (fresh_world ∅ offline)
        = (Ok tt, with_environ (fresh_world ∅ offline) env')
        /\ env' !! ENV_VAR_GIST_ID = Some (lit "abc123")
        /\ env' !! ENV_VAR_GITHUB_TOKEN = Some (lit "t0ken")
        /\ env' !! ENV_VAR_CHESS_COM_USERNAME = Some (lit "hikaru"))
  /\ cli_overrides [lit "chess_com_box.py"] (fresh_world ∅ offline)
     = (Ok tt, fresh_world ∅ offline).
Proof.
  split; [split; [reflexivity | discriminate] |].
  split.
  - destruct (proj1 (cli_overrides_five_tokens
                       [lit "chess_com_box.py"; lit "test"; lit "abc123"; lit "t0ken";
                        lit "hikaru"]
                       (fresh_world ∅ offline)) eq_refl)
      as (g & t & u & env' & Hg & Ht & Hu & Hrun & Eg & Et & Eu & _).
    exists env'.
    injection Hg as <-. injection Ht as <-. injection Hu as <-.
    repeat split; assumption.
  - apply (proj2 (cli_overrides_five_tokens [lit "chess_com_box.py"]
                    (fresh_world ∅ offline))).
    discriminate.
Defined.

(** * The further properties at concrete inputs *)


(** Two payloads that differ in the Bullet entry only, read for Blitz. *)
Lemma get_rating_line_same_path_bullet :
  lookup_path (blitz_payload (PInt 1500))
    [lit "chess_blitz"; selected_field (lit "Blitz"); lit "rating"]
  = lookup_path
      (PDict [(lit "chess_bullet", PDict [(lit "last", PDict [(lit "rating", PInt 900)])]);
              (lit "chess_blitz", PDict [(lit "last", PDict [(lit "rating", PInt 1500)])])])
      [lit "chess_blitz"; selected_field (lit "Blitz"); lit "rating"]
  /\ @get_rating_line plain_interpreter (lit "chess_blitz") [0x26A1%N] (lit "Blitz")
       (blitz_payload (PInt 1500))
     = @get_rating_line plain_interpreter (lit "chess_blitz") [0x26A1%N] (lit "Blitz")
         (PDict [(lit "chess_bullet", PDict [(lit "last", PDict [(lit "rating", PInt 900)])]);
                 (lit "chess_blitz", PDict [(lit "last", PDict [(lit "rating", PInt 1500)])])]).
Proof.
  split; [reflexivity |].
  apply (@get_rating_line_same_path plain_interpreter). reflexivity.
Defined.

(** The empty payload gives "N/A". *)
Lemma get_rating_line_na_iff_empty :
  @get_rating_line plain_interpreter (lit "chess_blitz") [0x26A1%N] (lit "Blitz") (PDict [])
  = Ok (mkTitleAndValue ([0x26A1%N] ++ lit " " ++ lit "Blitz") NA).
Proof.
  apply (proj2 (@get_rating_line_na_iff plain_interpreter
                  (lit "chess_blitz") [0x26A1%N] (lit "Blitz") (PDict []))).
  intros r E. discriminate E.
Defined.

(** The rating given as the string "1500". *)
Lemma get_rating_line_wrong_type_text :
  (lookup_path (blitz_payload (PStr (lit "1500")))
     [lit "chess_blitz"; selected_field (lit "Blitz"); lit "rating"]
   = Some (PStr (lit "1500"))
   /\ lit "1500" <> [])
  /\ @get_rating_line plain_interpreter (lit "chess_blitz") [0x26A1%N] (lit "Blitz")
       (blitz_payload (PStr (lit "1500")))
     = Ok (mkTitleAndValue ([0x26A1%N] ++ lit " " ++ lit "Blitz") (lit "1500" ++ TREND)).
Proof.
  assert (Hs : lit "1500" <> []) by (intros E; vm_compute in E; discriminate E).
  split; [split; [reflexivity | exact Hs] |].
  apply (proj1 (@get_rating_line_wrong_type plain_interpreter
                  (lit "chess_blitz") [0x26A1%N] (lit "Blitz")
                  (blitz_payload (PStr (lit "1500")))) (lit "1500"));
    [reflexivity | exact Hs].
Defined.

(** The loop over the five configurations, for the payload with the
    Blitz rating 1500: five lines, each at least as long as its width. *)
Lemma format_lines_any_configs_blitz :
  @printable_ratings plain_interpreter (blitz_payload (PInt 1500)) configs
  /\ exists added : list str,
       @format_lines plain_interpreter configs (blitz_payload (PInt 1500)) []
       = Ok added
       /\ length added = 5%nat.
Proof.
  split; [exact blitz_1500_printable |].
  destruct (@format_lines_any_configs plain_interpreter configs
              (blitz_payload (PInt 1500)) [] blitz_1500_printable configs_widths)
    as (added & Hfmt & Hall).
  exists added. split; [exact Hfmt |].
  symmetry. exact (Forall2_length _ _ _ Hall).
Defined.

(** The full environment passes the validation. *)
Lemma validate_and_init_true_iff_full :
  fst (validate_and_init (fresh_world full_environ offline)) = Ok true.
Proof.
  destruct (validate_and_init_true_iff (fresh_world full_environ offline))
    as (b & out & Hrun & Hiff & _).
  rewrite Hrun. cbn [fst]. f_equal. apply Hiff.
  intros name [<- | [<- | [<- | []]]]; eexists;
    (split; [vm_compute; reflexivity | discriminate]).
Defined.

(** The gist identifier set to the empty string. *)
Lemma main_empty_value_exits_gist_id :
  (In ENV_VAR_GIST_ID REQUIRED_ENVS
   /\ environ (fresh_world (<[ENV_VAR_GIST_ID := []]> full_environ) offline)
      !! ENV_VAR_GIST_ID = Some [])
  /\ exit_status
       (fst (@main plain_interpreter
               (fresh_world (<[ENV_VAR_GIST_ID := []]> full_environ) offline)))
     = 1
  /\ sent (snd (@main plain_interpreter
                  (fresh_world (<[ENV_VAR_GIST_ID := []]> full_environ) offline)))
     = [].
Proof.
  split; [split; [left; reflexivity | vm_compute; reflexivity] |].
  destruct (@main_empty_value_exits plain_interpreter
              (fresh_world (<[ENV_VAR_GIST_ID := []]> full_environ) offline)
              ENV_VAR_GIST_ID)
    as (_ & _ & Hexit & Hsent);
    [left; reflexivity | vm_compute; reflexivity |].
  split; [exact Hexit | exact Hsent].
Defined.

(** A run with an empty environment leaves through [sys.exit(1)]. *)
Lemma main_outcomes_empty_environ :
  List.filter (env_missing (fresh_world ∅ offline)) REQUIRED_ENVS <> []
  /\ fst (@main plain_interpreter (fresh_world ∅ offline)) = Raise (SystemExit 1).
Proof.
  assert (Hf : List.filter (env_missing (fresh_world ∅ offline)) REQUIRED_ENVS <> [])
    by (vm_compute; discriminate).
  split; [exact Hf |].
  destruct (@main_outcomes plain_interpreter (fresh_world ∅ offline))
    as (out & reqs & _ & _ & _ & _ & _ & Hexit).
  exact (Hexit Hf).
Defined.


(** Publishing from an empty environment, and from one that holds the
    token only. *)
Lemma update_gist_missing_variable_empty :
  (environ (fresh_world ∅ offline) !! ENV_VAR_GITHUB_TOKEN = None
   /\ update_gist GIST_TITLE (lit "text") (fresh_world ∅ offline)
      = (Raise (KeyError ENV_VAR_GITHUB_TOKEN), fresh_world ∅ offline))
  /\ (environ (fresh_world (<[ENV_VAR_GITHUB_TOKEN := lit "t0ken"]> ∅) offline)
      !! ENV_VAR_GITHUB_TOKEN = Some (lit "t0ken")
      /\ environ (fresh_world (<[ENV_VAR_GITHUB_TOKEN := lit "t0ken"]> ∅) offline)
         !! ENV_VAR_GIST_ID = None
      /\ update_gist GIST_TITLE (lit "text")
           (fresh_world (<[ENV_VAR_GITHUB_TOKEN := lit "t0ken"]> ∅) offline)
         = (Raise (KeyError ENV_VAR_GIST_ID),
            fresh_world (<[ENV_VAR_GITHUB_TOKEN := lit "t0ken"]> ∅) offline)).
Proof.
  split.
  - split; [vm_compute; reflexivity |].
    apply (proj1 (update_gist_missing_variable GIST_TITLE (lit "text")
                    (fresh_world ∅ offline))).
    vm_compute; reflexivity.
  - split; [vm_compute; reflexivity |]. split; [vm_compute; reflexivity |].
    apply (proj2 (update_gist_missing_variable GIST_TITLE (lit "text")
                    (fresh_world (<[ENV_VAR_GITHUB_TOKEN := lit "t0ken"]> ∅) offline))
             (lit "t0ken"));
      vm_compute; reflexivity.
Defined.

(** The script with the program name alone, in an empty environment. *)
Lemma script_outcomes_empty_environ :
  exit_status (fst (@script plain_interpreter [lit "chess_com_box.py"]
                      (fresh_world ∅ offline))) = 1.
Proof.
  destruct (@script_outcomes plain_interpreter [lit "chess_com_box.py"]
              (fresh_world ∅ offline))
    as (w1 & Hcli & _ & _ & _ & _ & Hmissing).
  assert (Hw1 : w1 = fresh_world ∅ offline).
  { assert (E : cli_overrides [lit "chess_com_box.py"] (fresh_world ∅ offline)
                = (Ok tt, fresh_world ∅ offline)) by reflexivity.
    rewrite E in Hcli. injection Hcli as <-. reflexivity. }
  subst w1. apply Hmissing. vm_compute. discriminate.
Defined.

(** A local run with five tokens from an empty environment, without a
    network. *)
Lemma script_five_tokens_run_local :
  (lit "abc123" <> [] /\ lit "t0ken" <> [] /\ lit "hikaru" <> [])
  /\ exit_status
       (fst (@script plain_interpreter
               [lit "chess_com_box.py"; lit "test"; lit "abc123"; lit "t0ken"; lit "hikaru"]
               (fresh_world ∅ offline)))
     = 0.
Proof.
  split; [split; [exact abc123_nonempty |];
          split; [exact t0ken_nonempty | exact hikaru_nonempty] |].
  destruct (@script_five_tokens_run plain_interpreter
              (lit "chess_com_box.py") (lit "test") (lit "abc123") (lit "t0ken")
              (lit "hikaru") (fresh_world ∅ offline)
              abc123_nonempty t0ken_nonempty hikaru_nonempty)
    as (env' & out & reqs & _ & _ & _ & _ & _ & _ & _ & Hok).
  apply Hok. vm_compute. reflexivity.
Defined.

(** A run with a full environment and no network. *)
Lemma main_fetch_failed_publishes_na_offline :
  (fetch_step_of (stats_request (lit "hikaru"))
     (remote (fresh_world full_environ offline) (stats_request (lit "hikaru")))
   = FetchFailed (lit "offline")
   /\ encodable (fresh_world full_environ offline)
        (lit "Error fetching Chess.com stats: " ++ lit "offline") = true)
  /\ exists (lines : list str) (req : request),
       sent (snd (@main plain_interpreter (fresh_world full_environ offline)))
       = [stats_request (lit "hikaru"); req]
       /\ gist_content req = Some (join [10%N] lines)
       /\ List.map len lines = [52; 52; 53; 52; 53].
Proof.
  assert (Henc : encodable (fresh_world full_environ offline)
                   (lit "Error fetching Chess.com stats: " ++ lit "offline") = true)
    by (vm_compute; reflexivity).
  split; [split; [reflexivity | exact Henc] |].
  destruct (@main_fetch_failed_publishes_na plain_interpreter
              (fresh_world full_environ offline)
              (lit "abc123") (lit "t0ken") (lit "hikaru") (lit "offline"))
    as (lines & req & rest & Hsent & _ & Hcontent & _ & Hlens);
    try exact abc123_nonempty; try exact t0ken_nonempty; try exact hikaru_nonempty;
    try exact Henc; try (vm_compute; reflexivity).
  exists lines, req. split; [exact Hsent |]. split; [exact Hcontent | exact Hlens].
Defined.

(** The fetch for the user "hikaru" on a server that answers with the
    Blitz rating 1500. *)
Lemma get_chess_com_stats_outcomes_answered :
  (remote (fresh_world full_environ (answering (blitz_payload (PInt 1500))))
     (stats_request (lit "hikaru"))
   = Responded (mkResponse 200 [] (Parsed (blitz_payload (PInt 1500))))
   /\ forallb is_latin1 (lit "hikaru") = true
   /\ error_status (mkResponse 200 [] (Parsed (blitz_payload (PInt 1500)))) = false)
  /\ get_chess_com_stats (lit "hikaru")
       (fresh_world full_environ (answering (blitz_payload (PInt 1500))))
     = (Ok (blitz_payload (PInt 1500)),
        extend (fresh_world full_environ (answering (blitz_payload (PInt 1500))))
          [] [stats_request (lit "hikaru")]).
Proof.
  split; [split; [reflexivity | split; reflexivity] |].
  destruct (get_chess_com_stats_outcomes (lit "hikaru")
              (fresh_world full_environ (answering (blitz_payload (PInt 1500)))))
    as (_ & _ & _ & _ & _ & Hanswered).
  destruct (Hanswered (mkResponse 200 [] (Parsed (blitz_payload (PInt 1500))))
              eq_refl eq_refl) as [_ Hbody].
  exact (Hbody eq_refl).
Defined.
